(** * FaceVectorIndex: a shallow embedding of server/services/faceAuth/vectorIndex.py

    The engine keeps a flat L2 index of unit embeddings together with two
    dictionaries (internal position -> profile id and back) and an optional
    Redis snapshot.

    Modelling choices.
    - float32 numbers are exact rationals ([Q]); rounding, NaN and infinities
      are outside the model, and [astype('float32')] is the identity.
    - [np.linalg.norm] and the k-nearest-neighbour scan of [faiss.IndexFlatL2]
      are library code: they are the two fields of the class [Kernels].  The
      instance [exact_kernels] is a rational reference implementation.
    - Python dictionaries are insertion-ordered association lists ([dict]).
    - Every method body runs in the monad [M]: it threads the engine and may
      raise; [try_except] is the [try: ... except Exception: ...] wrapper that
      the source puts around each public method.
    - The JSON-RPC front end of vectorIndexServer.py is embedded after the
      engine: requests and responses are [json] values, and the handlers run
      the engine methods defined here.
    - Redis values are kept in deserialised form; a falsy blob is [None].  A
      store that answered the ping keeps answering, so the [except] branches
      of [save_to_redis] and [load_from_redis] are never taken.  The field
      [executed] counts the pipelines executed on the store.  The
      [updated_at] time stamp is not modelled. *)

From Stdlib Require Import List ZArith QArith Qminmax Bool String Lia Arith FinFun.
From Stdlib Require Import Sorted Ascii Lqa.
Import ListNotations.

(** ** Python dictionaries with integer keys *)

Module Dict.

Definition dict (V : Type) := list (Z * V).

Fixpoint get {V} (k : Z) (m : dict V) : option V :=
  match m with
  | [] => None
  | (k', v) :: rest => if Z.eqb k k' then Some v else get k rest
  end.

(** [k in m] *)
Definition mem {V} (k : Z) (m : dict V) : bool :=
  match get k m with Some _ => true | None => false end.

(** [m[k] = v]: an existing key keeps its place, a new one goes last. *)
Fixpoint set {V} (k : Z) (v : V) (m : dict V) : dict V :=
  match m with
  | [] => [(k, v)]
  | (k', v') :: rest =>
      if Z.eqb k k' then (k', v) :: rest else (k', v') :: set k v rest
  end.

Definition items {V} (m : dict V) : list (Z * V) := m.

Definition len {V} (m : dict V) : Z := Z.of_nat (List.length m).

End Dict.

Import Dict.

(** ** Numbers, vectors and the library kernels *)

Definition vec := list Q.

Definition Qltb (a b : Q) : bool := negb (Qle_bool b a).

(** Python's [max(a, b)]: [b] when [b > a], otherwise [a]. *)
Definition py_max (a b : Q) : Q := if Qltb a b then b else a.

(** Python's [min] on integers. *)
Definition py_min (a b : Z) : Z := if Z.ltb b a then b else a.

Class Kernels := {
  (** [np.linalg.norm] *)
  linalg_norm : vec -> Q;
  (** the scan behind [IndexFlatL2.search]: stored rows, query, number of
      neighbours; pairs of (squared distance, position), nearest first *)
  flat_search : list vec -> vec -> nat -> list (Q * Z)
}.

(** ** Exceptions and the method monad *)

Inductive exn := ValueError | AssertionError | RuntimeError.

Inductive outcome (A : Type) :=
| Returned (a : A)
| Raised (e : exn).

Arguments Returned {A} a.
Arguments Raised {A} e.

(** ** The FAISS flat index *)

Record faiss_index := MkIndex { index_d : nat; xb : list vec }.

Definition IndexFlatL2 (dimension : nat) : faiss_index :=
  {| index_d := dimension; xb := [] |}.

Definition ntotal (i : faiss_index) : Z := Z.of_nat (List.length (xb i)).

(** [index.add(rows)]: the wrapper asserts the row width. *)
Definition index_add (i : faiss_index) (rows : list vec) : exn + faiss_index :=
  if forallb (fun v => Nat.eqb (List.length v) (index_d i)) rows
  then inr {| index_d := index_d i; xb := xb i ++ rows |}
  else inl AssertionError.

(** [index.reconstruct(key)] *)
Definition index_reconstruct (i : faiss_index) (key : Z) : exn + vec :=
  if (0 <=? key)%Z && (key <? ntotal i)%Z then
    match nth_error (xb i) (Z.to_nat key) with
    | Some v => inr v
    | None => inl RuntimeError
    end
  else inl RuntimeError.

(** [index.search(q, n)]: the wrapper asserts the width and [n > 0]. *)
Definition index_search `{Kernels} (i : faiss_index) (q : vec) (n : Z)
  : exn + list (Q * Z) :=
  if negb (Nat.eqb (List.length q) (index_d i)) then inl AssertionError
  else if (n <=? 0)%Z then inl AssertionError
  else inr (flat_search (xb i) q (Z.to_nat n)).

(** ** Engine state *)

Record mappings := MkMappings {
  m_id_map : dict Z;
  m_reverse_map : dict Z;
  m_dimension : nat;
  m_total : Z
}.

Record redis := MkRedis {
  kv_index : option faiss_index;   (* value under index_key *)
  kv_map : option mappings;        (* value under map_key *)
  executed : nat                   (* pipelines executed so far *)
}.

Record engine := MkEngine {
  dimension : nat;
  index : faiss_index;
  id_map : dict Z;          (* faiss id -> face_profile_id *)
  reverse_map : dict Z;     (* face_profile_id -> faiss id *)
  redis_client : option redis
}.

Definition set_index (i : faiss_index) (s : engine) : engine :=
  {| dimension := dimension s; index := i; id_map := id_map s;
     reverse_map := reverse_map s; redis_client := redis_client s |}.

Definition set_id_map (m : dict Z) (s : engine) : engine :=
  {| dimension := dimension s; index := index s; id_map := m;
     reverse_map := reverse_map s; redis_client := redis_client s |}.

Definition set_reverse_map (m : dict Z) (s : engine) : engine :=
  {| dimension := dimension s; index := index s; id_map := id_map s;
     reverse_map := m; redis_client := redis_client s |}.

Definition set_redis_client (r : option redis) (s : engine) : engine :=
  {| dimension := dimension s; index := index s; id_map := id_map s;
     reverse_map := reverse_map s; redis_client := r |}.

Definition M (A : Type) := engine -> outcome A * engine.

Definition ret {A} (a : A) : M A := fun s => (Returned a, s).

Definition raise {A} (e : exn) : M A := fun s => (Raised e, s).

Definition bind {A B} (m : M A) (f : A -> M B) : M B :=
  fun s => match m s with
           | (Returned a, s') => f a s'
           | (Raised e, s') => (Raised e, s')
           end.

Definition get_state : M engine := fun s => (Returned s, s).

Definition modify (f : engine -> engine) : M unit := fun s => (Returned tt, f s).

(** a library call that may raise *)
Definition lift {A} (r : exn + A) : M A :=
  match r with inl e => raise e | inr a => ret a end.

(** [try: body except Exception as e: handler] *)
Definition try_except {A} (body : M A) (handler : exn -> M A) : M A :=
  fun s => match body s with
           | (Returned a, s') => (Returned a, s')
           | (Raised e, s') => handler e s'
           end.

Declare Scope py_scope.
Delimit Scope py_scope with py.
Notation "x <- c1 ;; c2" := (bind c1 (fun x => c2))
  (at level 100, c1 at next level, right associativity) : py_scope.
Notation "c1 ;;; c2" := (bind c1 (fun _ => c2))
  (at level 100, right associativity) : py_scope.
Open Scope py_scope.

(** ** The engine: class FaceVectorIndex *)

Record SearchResult := MkSearchResult {
  face_profile_id : Z;
  similarity : Q;
  distance : Q;
  confidence_level : string
}.

Definition HIGH_CONFIDENCE_THRESHOLD : Q := 85 # 100.
Definition MEDIUM_CONFIDENCE_THRESHOLD : Q := 70 # 100.

(** [similarity = max(0.0, 1.0 - (dist / 4.0))] *)
Definition similarity_of (dist : Q) : Q := py_max 0 (1 - dist / 4).

(** the [if / elif / else] that picks the confidence level *)
Definition confidence_of (sim : Q) : string :=
  if Qle_bool HIGH_CONFIDENCE_THRESHOLD sim then "high"
  else if Qle_bool MEDIUM_CONFIDENCE_THRESHOLD sim then "medium"
  else "low".

(** truthiness of an [Optional[int]] *)
Definition truthy (o : option Z) : bool :=
  match o with
  | None => false
  | Some z => negb (Z.eqb z 0)
  end.

(** [face_profile_id == exclude_id] *)
Definition eq_opt (x : Z) (o : option Z) : bool :=
  match o with
  | None => false
  | Some z => Z.eqb x z
  end.

Section Engine.

Context {K : Kernels}.

(** [norm = np.linalg.norm(e); if norm > 0: e = e / norm] *)
Definition normalize (e : vec) : vec :=
  let norm := linalg_norm e in
  if Qltb 0 norm then map (fun x => x / norm) e else e.

(** *** save_to_redis *)
Definition save_to_redis : M bool :=
  s <- get_state ;;
  match redis_client s with
  | None => ret false
  | Some r =>
      let mappings :=
        {| m_id_map := id_map s; m_reverse_map := reverse_map s;
           m_dimension := dimension s; m_total := ntotal (index s) |} in
      modify (set_redis_client
                (Some {| kv_index := Some (index s);
                         kv_map := Some mappings;
                         executed := S (executed r) |})) ;;;
      ret true
  end.

(** [if persist and self.redis_client: self.save_to_redis()] *)
Definition persist_if (persist : bool) : M unit :=
  s <- get_state ;;
  match redis_client s with
  | Some _ => if persist then (save_to_redis ;;; ret tt) else ret tt
  | None => ret tt
  end.

(** *** add_vector *)
Definition add_vector_body (fid : Z) (embedding : vec) (persist : bool)
  : M bool :=
  s <- get_state ;;
  if mem fid (reverse_map s) then ret false
  else if negb (Nat.eqb (List.length embedding) (dimension s))
  then raise ValueError
  else
    let embedding := normalize embedding in
    let faiss_id := ntotal (index s) in
    i <- lift (index_add (index s) [embedding]) ;;
    modify (set_index i) ;;;
    modify (fun s => set_id_map (set faiss_id fid (id_map s)) s) ;;;
    modify (fun s => set_reverse_map (set fid faiss_id (reverse_map s)) s) ;;;
    persist_if persist ;;;
    ret true.

Definition add_vector (fid : Z) (embedding : vec) (persist : bool) : M bool :=
  try_except (add_vector_body fid embedding persist) (fun _ => ret false).

(** *** search_similar *)

(** the [for dist, idx in zip(distances[0], indices[0])] loop; [results] is
    the list built so far *)
Fixpoint search_loop (idm : dict Z) (k : Z) (exclude_id : option Z)
  (cands : list (Q * Z)) (results : list SearchResult) : list SearchResult :=
  match cands with
  | [] => results
  | (dist, idx) :: rest =>
      if Z.eqb idx (-1) || negb (mem idx idm)
      then search_loop idm k exclude_id rest results
      else
        match get idx idm with
        | None => search_loop idm k exclude_id rest results
        | Some fid =>
            if truthy exclude_id && eq_opt fid exclude_id
            then search_loop idm k exclude_id rest results
            else
              let sim := similarity_of dist in
              let results :=
                results ++ [{| face_profile_id := fid; similarity := sim;
                               distance := dist;
                               confidence_level := confidence_of sim |}] in
              if (k <=? Z.of_nat (List.length results))%Z then results
              else search_loop idm k exclude_id rest results
        end
  end.

Definition search_similar_body (embedding : vec) (k : Z)
  (exclude_id : option Z) : M (list SearchResult) :=
  s <- get_state ;;
  if Z.eqb (ntotal (index s)) 0 then ret []
  else if negb (Nat.eqb (List.length embedding) (dimension s))
  then raise ValueError
  else
    let embedding := normalize embedding in
    cands <- lift (index_search (index s) embedding
                     (py_min (k * 2) (ntotal (index s)))) ;;
    ret (search_loop (id_map s) k exclude_id cands []).

Definition search_similar (embedding : vec) (k : Z) (exclude_id : option Z)
  : M (list SearchResult) :=
  try_except (search_similar_body embedding k exclude_id) (fun _ => ret []).

(** *** remove_vector *)

(** the loop over [self.id_map.items()] *)
Fixpoint remove_loop (i : faiss_index) (fid : Z) (items : list (Z * Z))
  (vectors : list vec) (new_id_map : dict Z) : exn + (list vec * dict Z) :=
  match items with
  | [] => inr (vectors, new_id_map)
  | (faiss_id, profile_id) :: rest =>
      if negb (Z.eqb profile_id fid) then
        match index_reconstruct i faiss_id with
        | inl e => inl e
        | inr vector =>
            let vectors := vectors ++ [vector] in
            remove_loop i fid rest vectors
              (set (Z.of_nat (List.length vectors) - 1) profile_id new_id_map)
        end
      else remove_loop i fid rest vectors new_id_map
  end.

(** [{v: k for k, v in m.items()}] *)
Definition invert (m : dict Z) : dict Z :=
  fold_left (fun acc kv => set (snd kv) (fst kv) acc) (items m) [].

Definition remove_vector_body (fid : Z) (persist : bool) : M bool :=
  s <- get_state ;;
  if negb (mem fid (reverse_map s)) then ret false
  else
    r <- lift (remove_loop (index s) fid (items (id_map s)) [] []) ;;
    let '(vectors, new_id_map) := r in
    modify (set_index (IndexFlatL2 (dimension s))) ;;;
    (match vectors with
     | [] => ret tt
     | _ :: _ =>
         i <- lift (index_add (IndexFlatL2 (dimension s)) vectors) ;;
         modify (set_index i)
     end) ;;;
    modify (set_id_map new_id_map) ;;;
    modify (set_reverse_map (invert new_id_map)) ;;;
    persist_if persist ;;;
    ret true.

Definition remove_vector (fid : Z) (persist : bool) : M bool :=
  try_except (remove_vector_body fid persist) (fun _ => ret false).

(** *** check_duplicate *)
Definition check_duplicate (embedding : vec) (exclude_id : option Z)
  : M (bool * option SearchResult) :=
  results <- search_similar embedding 1 exclude_id ;;
  match results with
  | [] => ret (false, None)
  | best_match :: _ =>
      let is_duplicate :=
        Qle_bool HIGH_CONFIDENCE_THRESHOLD (similarity best_match) in
      ret (is_duplicate, Some best_match)
  end.

(** *** load_from_redis *)
Definition load_from_redis : M bool :=
  s <- get_state ;;
  match redis_client s with
  | None => ret false
  | Some r =>
      match kv_index r with
      | None => ret false
      | Some index_bytes =>
          modify (set_index index_bytes) ;;;
          match kv_map r with
          | None => ret false
          | Some mappings =>
              modify (set_id_map (m_id_map mappings)) ;;;
              modify (set_reverse_map (m_reverse_map mappings)) ;;;
              ret true
          end
      end
  end.

(** *** __init__: [store] is the Redis server when it answers the ping *)
Definition FaceVectorIndex (dimension : nat) (store : option redis) : engine :=
  let s := {| dimension := dimension; index := IndexFlatL2 dimension;
              id_map := []; reverse_map := []; redis_client := store |} in
  snd (load_from_redis s).

(** *** rebuild_from_database *)
Fixpoint add_all (face_profiles : list (Z * vec)) (success_count : nat)
  : M nat :=
  match face_profiles with
  | [] => ret success_count
  | (fid, embedding) :: rest =>
      ok <- add_vector fid embedding false ;;
      add_all rest (if ok then S success_count else success_count)
  end.

Definition rebuild_from_database_body (face_profiles : list (Z * vec))
  : M bool :=
  s <- get_state ;;
  modify (set_index (IndexFlatL2 (dimension s))) ;;;
  modify (set_id_map []) ;;;
  modify (set_reverse_map []) ;;;
  _ <- add_all face_profiles 0 ;;
  persist_if true ;;;
  ret true.

Definition rebuild_from_database (face_profiles : list (Z * vec)) : M bool :=
  try_except (rebuild_from_database_body face_profiles) (fun _ => ret false).

End Engine.

(** ** A rational reference implementation of the kernels *)

Module Exact.

(** floor of the square root of a rational, exact on squares of rationals *)
Definition Qsqrt (q : Q) : Q :=
  Qred (Z.sqrt (Qnum q * Zpos (Qden q)) # Qden q).

Definition norm (v : vec) : Q :=
  Qsqrt (Qred (fold_left (fun acc x => acc + x * x) v 0)).

(** squared Euclidean distance *)
Definition l2sqr (a b : vec) : Q :=
  Qred (fold_left (fun acc p => acc + (fst p - snd p) * (fst p - snd p))
          (combine a b) 0).

Fixpoint insert (c : Q * Z) (l : list (Q * Z)) : list (Q * Z) :=
  match l with
  | [] => [c]
  | c' :: rest =>
      if Qle_bool (fst c) (fst c') then c :: l else c' :: insert c rest
  end.

(** brute-force scan: all distances, stable sort, the first [n] *)
Definition search (rows : list vec) (q : vec) (n : nat) : list (Q * Z) :=
  firstn n
    (fold_right insert []
       (combine (map (l2sqr q) rows)
                (map Z.of_nat (seq 0 (List.length rows))))).

End Exact.

#[export] Instance exact_kernels : Kernels :=
  {| linalg_norm := Exact.norm; flat_search := Exact.search |}.

(** ** Invariants and specification-level views *)

(** internal positions [0 .. n-1] *)
Definition positions (n : nat) : list Z := map Z.of_nat (seq 0 n).

(** the identity map that numbers [ids] densely from 0, and its inverse *)
Definition enum (ids : list Z) : dict Z :=
  combine (positions (List.length ids)) ids.

Definition renum (ids : list Z) : dict Z :=
  combine ids (positions (List.length ids)).

(** external ids in position order *)
Definition ext_ids (s : engine) : list Z := map snd (id_map s).

(** the state invariant kept by the mutating methods *)
Definition wf (s : engine) : Prop :=
  index_d (index s) = dimension s /\
  Forall (fun v => List.length v = dimension s) (xb (index s)) /\
  NoDup (ext_ids s) /\
  List.length (ext_ids s) = List.length (xb (index s)) /\
  id_map s = enum (ext_ids s) /\
  reverse_map s = renum (ext_ids s).

(** the identity map is a bijection onto the stored vectors *)
Definition bijective (s : engine) : Prop :=
  len (reverse_map s) = ntotal (index s) /\
  forall x p, get x (reverse_map s) = Some p -> get p (id_map s) = Some x.

(** the records [rebuild_from_database] keeps: [seen] are the ids bound so
    far, [dim] the engine's dimension *)
Fixpoint accepted (dim : nat) (seen : list Z) (recs : list (Z * vec))
  : list (Z * vec) :=
  match recs with
  | [] => []
  | (fid, e) :: rest =>
      if existsb (Z.eqb fid) seen || negb (Nat.eqb (List.length e) dim)
      then accepted dim seen rest
      else (fid, e) :: accepted dim (seen ++ [fid]) rest
  end.

(** the records of [recs] whose id did not occur earlier in [recs] *)
Fixpoint first_occurrences (seen : list Z) (recs : list (Z * vec))
  : list (Z * vec) :=
  match recs with
  | [] => []
  | (fid, e) :: rest =>
      if existsb (Z.eqb fid) seen then first_occurrences seen rest
      else (fid, e) :: first_occurrences (seen ++ [fid]) rest
  end.

(** the survivors of a removal: stored rows paired with their ids *)
Definition keeps (fid : Z) (p : vec * Z) : bool := negb (Z.eqb (snd p) fid).

Definition survivors (fid : Z) (s : engine) : list (vec * Z) :=
  filter (keeps fid) (combine (xb (index s)) (ext_ids s)).

(** a match record as the loop builds it from the entry [idm[idx] = fid] *)
Definition scored (idm : dict Z) (r : SearchResult) : Prop :=
  similarity r = similarity_of (distance r) /\
  confidence_level r = confidence_of (similarity r) /\
  exists idx, get idx idm = Some (face_profile_id r).

(** what a snapshot of [s] holds *)
Definition snapshot_of (s : engine) (n : nat) : redis :=
  {| kv_index := Some (index s);
     kv_map := Some {| m_id_map := id_map s; m_reverse_map := reverse_map s;
                       m_dimension := dimension s;
                       m_total := ntotal (index s) |};
     executed := n |}.

(** the engine after a snapshot was taken, when one is due *)
Definition persisted (persist : bool) (s : engine) : engine :=
  match redis_client s with
  | Some r =>
      if persist
      then set_redis_client (Some (snapshot_of s (S (executed r)))) s
      else s
  | None => s
  end.

(** the engine after [embedding] was appended and bound to [fid] *)
Definition inserted `{Kernels} (fid : Z) (embedding : vec) (s : engine)
  : engine :=
  {| dimension := dimension s;
     index := {| index_d := index_d (index s);
                 xb := xb (index s) ++ [normalize embedding] |};
     id_map := set (ntotal (index s)) fid (id_map s);
     reverse_map := set fid (ntotal (index s)) (reverse_map s);
     redis_client := redis_client s |}.

(** the engine rebuilt from the survivors of a removal *)
Definition removed (fid : Z) (s : engine) : engine :=
  {| dimension := dimension s;
     index := {| index_d := dimension s;
                 xb := map fst (survivors fid s) |};
     id_map := enum (map snd (survivors fid s));
     reverse_map := renum (map snd (survivors fid s));
     redis_client := redis_client s |}.

(** the engine that holds exactly the records [recs], in order *)
Definition loaded `{Kernels} (dim : nat) (recs : list (Z * vec))
  (r : option redis) : engine :=
  {| dimension := dim;
     index := {| index_d := dim;
                 xb := map (fun p => normalize (snd p)) recs |};
     id_map := enum (map fst recs);
     reverse_map := renum (map fst recs);
     redis_client := r |}.

(** sample engines used in the examples *)
Definition e1 : vec := [1; 0; 0; 0].
Definition e2 : vec := [0; 1; 0; 0].

Definition fresh4 : engine := FaceVectorIndex 4 None.

Definition two_faces : engine :=
  snd (add_vector 2 e2 false (snd (add_vector 1 e1 false fresh4))).

(** one enrolled profile whose id is 0 *)
Definition zero_face : engine := snd (add_vector 0 e1 false fresh4).


(** ** Values exchanged with the caller: what [json.loads] yields and
    [json.dumps] accepts *)

#[warnings="-register-all"] Inductive json :=
| JNull
| JBool (b : bool)
| JInt (z : Z)
| JFloat (q : Q)
| JStr (s : string)
| JArr (l : list json)
| JObj (l : list (string * json)).

(** [d.get(key)] on a dictionary with string keys *)
Fixpoint obj_get (key : string) (fields : list (string * json))
  : option json :=
  match fields with
  | [] => None
  | (k, v) :: rest => if String.eqb key k then Some v else obj_get key rest
  end.

(** [d.get(key, default)] *)
Definition obj_get_default (key : string) (default : json)
  (fields : list (string * json)) : json :=
  match obj_get key fields with Some v => v | None => default end.

(** *** get_stats *)
Definition get_stats (s : engine) : list (string * json) :=
  [("total_vectors"%string, JInt (ntotal (index s)));
   ("dimension"%string, JInt (Z.of_nat (dimension s)));
   ("redis_connected"%string,
    JBool (match redis_client s with Some _ => true | None => false end));
   ("high_threshold"%string, JFloat HIGH_CONFIDENCE_THRESHOLD);
   ("medium_threshold"%string, JFloat MEDIUM_CONFIDENCE_THRESHOLD)].

(** ** Sequences of public calls on one engine *)

Inductive call :=
| CallAdd (fid : Z) (embedding : vec) (persist : bool)
| CallSearch (embedding : vec) (k : Z) (exclude_id : option Z)
| CallCheck (embedding : vec) (exclude_id : option Z)
| CallRemove (fid : Z) (persist : bool)
| CallRebuild (face_profiles : list (Z * vec))
| CallSave
| CallStats.

Definition perform `{Kernels} (c : call) (s : engine) : engine :=
  match c with
  | CallAdd fid e persist => snd (add_vector fid e persist s)
  | CallSearch e k ex => snd (search_similar e k ex s)
  | CallCheck e ex => snd (check_duplicate e ex s)
  | CallRemove fid persist => snd (remove_vector fid persist s)
  | CallRebuild recs => snd (rebuild_from_database recs s)
  | CallSave => snd (save_to_redis s)
  | CallStats => s
  end.

Definition perform_all `{Kernels} (cs : list call) (s : engine) : engine :=
  fold_left (fun s c => perform c s) cs s.



(** two engines hold the same vectors and the same identity map *)
Definition same_content (a b : engine) : Prop :=
  index a = index b /\ id_map a = id_map b /\ reverse_map a = reverse_map b.

(** a store without a structure key, or holding the snapshot of a
    well-formed engine of dimension [dim] *)
Definition sound_store (dim : nat) (store : option redis) : Prop :=
  match store with
  | None => True
  | Some r =>
      kv_index r = None \/
      exists s0 n, wf s0 /\ dimension s0 = dim /\ r = snapshot_of s0 n
  end.

(** ** The JSON-RPC server: server/services/faceAuth/vectorIndexServer.py

    Requests and responses are [json] values; [str.strip], [json.loads],
    [str()] and the text of an exception are library code, the fields of the
    class [Runtime].  The engine works on integer ids and flat vectors, so a
    handler answers [Unmodelled] when a parameter that is present has another
    JSON type than the integer, the list of numbers or the list of records it
    stands for; missing keys and non-dictionary containers raise as in
    Python. *)

Inductive server_exn :=
| KeyError (key : string)     (* [d[key]], key absent *)
| TypeError                   (* subscript of a non-dictionary, unhashable key *)
| AttributeError              (* [.get] on a non-dictionary *)
| EngineError (e : exn).      (* an exception leaving an engine method *)

Class Runtime := {
  (** [str.strip] *)
  str_strip : string -> string;
  (** [json.loads]; [None] is a [JSONDecodeError] *)
  json_loads : string -> option json;
  (** [str()] of a value that is not a string *)
  py_str : json -> string;
  (** [str(e)] *)
  exn_str : server_exn -> string
}.

Inductive reply (A : Type) :=
| Done (a : A)
| Thrown (e : server_exn)
| Unmodelled.

Arguments Done {A} a.
Arguments Thrown {A} e.
Arguments Unmodelled {A}.

Definition RPC (A : Type) := engine -> reply A * engine.

Definition rret {A} (a : A) : RPC A := fun s => (Done a, s).

Definition rbind {A B} (m : RPC A) (f : A -> RPC B) : RPC B :=
  fun s => match m s with
           | (Done a, s') => f a s'
           | (Thrown e, s') => (Thrown e, s')
           | (Unmodelled, s') => (Unmodelled, s')
           end.

(** a step that does not touch the engine *)
Definition rlift {A} (r : reply A) : RPC A := fun s => (r, s).

(** a call of an engine method *)
Definition call_engine {A} (m : M A) : RPC A :=
  fun s => match m s with
           | (Returned a, s') => (Done a, s')
           | (Raised e, s') => (Thrown (EngineError e), s')
           end.

Declare Scope rpc_scope.
Delimit Scope rpc_scope with rpc.
Notation "x <- c1 ;; c2" := (rbind c1 (fun x => c2))
  (at level 100, c1 at next level, right associativity) : rpc_scope.

(** [container[key]] with a string key *)
Definition subscript (container : json) (key : string) : reply json :=
  match container with
  | JObj fields =>
      match obj_get key fields with
      | Some v => Done v
      | None => Thrown (KeyError key)
      end
  | _ => Thrown TypeError
  end.

(** [container.get(key, default)] *)
Definition dict_get (container : json) (key : string) (default : json)
  : reply json :=
  match container with
  | JObj fields => Done (obj_get_default key default fields)
  | _ => Thrown AttributeError
  end.

Definition number (j : json) : option Q :=
  match j with
  | JInt z => Some (inject_Z z)
  | JFloat q => Some q
  | _ => None
  end.

Fixpoint numbers (l : list json) : option vec :=
  match l with
  | [] => Some []
  | j :: rest =>
      match number j, numbers rest with
      | Some q, Some v => Some (q :: v)
      | _, _ => None
      end
  end.

(** [np.array(value, dtype='float32')] on a flat list of numbers *)
Definition np_array (value : json) : reply vec :=
  match value with
  | JArr l => match numbers l with Some v => Done v | None => Unmodelled end
  | _ => Unmodelled
  end.

Definition as_int (value : json) : reply Z :=
  match value with JInt z => Done z | _ => Unmodelled end.

Definition as_optional_int (value : json) : reply (option Z) :=
  match value with
  | JNull => Done None
  | JInt z => Done (Some z)
  | _ => Unmodelled
  end.

Definition as_list (value : json) : reply (list json) :=
  match value with JArr l => Done l | _ => Unmodelled end.

(** the dictionary built from a [SearchResult] *)
Definition result_json (r : SearchResult) : json :=
  JObj [("face_profile_id"%string, JInt (face_profile_id r));
        ("similarity"%string, JFloat (similarity r));
        ("distance"%string, JFloat (distance r));
        ("confidence_level"%string, JStr (confidence_level r))].

Definition result_response (request_id result : json) : json :=
  JObj [("jsonrpc"%string, JStr "2.0"); ("id"%string, request_id);
        ("result"%string, result)].

Definition error_response (request_id : json) (code : Z) (message : string)
  : json :=
  JObj [("jsonrpc"%string, JStr "2.0"); ("id"%string, request_id);
        ("error"%string,
         JObj [("code"%string, JInt code);
               ("message"%string, JStr message)])].

Section Server.

Context {K : Kernels} {R : Runtime}.

Local Open Scope rpc_scope.

(** *** JSONRPCServer.add_vector *)
Definition rpc_add_vector (params : json) : RPC json :=
  fid_value <- rlift (subscript params "face_profile_id") ;;
  embedding_value <- rlift (subscript params "embedding") ;;
  embedding <- rlift (np_array embedding_value) ;;
  fid <- rlift (as_int fid_value) ;;
  success <- call_engine (add_vector fid embedding true) ;;
  rret (JObj [("success"%string, JBool success)]).

(** *** JSONRPCServer.search_similar *)
Definition rpc_search_similar (params : json) : RPC json :=
  embedding_value <- rlift (subscript params "embedding") ;;
  embedding <- rlift (np_array embedding_value) ;;
  k_value <- rlift (dict_get params "k" (JInt 10)) ;;
  exclude_value <- rlift (dict_get params "exclude_id" JNull) ;;
  k <- rlift (as_int k_value) ;;
  exclude_id <- rlift (as_optional_int exclude_value) ;;
  results <- call_engine (search_similar embedding k exclude_id) ;;
  rret (JObj [("results"%string, JArr (map result_json results))]).

(** *** JSONRPCServer.check_duplicate *)
Definition rpc_check_duplicate (params : json) : RPC json :=
  embedding_value <- rlift (subscript params "embedding") ;;
  embedding <- rlift (np_array embedding_value) ;;
  exclude_value <- rlift (dict_get params "exclude_id" JNull) ;;
  exclude_id <- rlift (as_optional_int exclude_value) ;;
  r <- call_engine (check_duplicate embedding exclude_id) ;;
  rret (JObj [("is_duplicate"%string, JBool (fst r));
              ("best_match"%string,
               match snd r with
               | Some best_match => result_json best_match
               | None => JNull
               end)]).

(** *** JSONRPCServer.remove_vector *)
Definition rpc_remove_vector (params : json) : RPC json :=
  fid_value <- rlift (subscript params "face_profile_id") ;;
  fid <- rlift (as_int fid_value) ;;
  success <- call_engine (remove_vector fid true) ;;
  rret (JObj [("success"%string, JBool success)]).

(** *** JSONRPCServer.get_stats *)
Definition rpc_get_stats (params : json) : RPC json :=
  fun s => (Done (JObj [("stats"%string, JObj (get_stats s))]), s).

(** *** JSONRPCServer.rebuild_from_database *)

(** the list comprehension over [params['face_profiles']] *)
Fixpoint read_profiles (items : list json) : reply (list (json * vec)) :=
  match items with
  | [] => Done []
  | fp :: rest =>
      match subscript fp "id" with
      | Done id_value =>
          match subscript fp "embedding" with
          | Done embedding_value =>
              match np_array embedding_value with
              | Done embedding =>
                  match read_profiles rest with
                  | Done l => Done ((id_value, embedding) :: l)
                  | Thrown e => Thrown e
                  | Unmodelled => Unmodelled
                  end
              | Thrown e => Thrown e
              | Unmodelled => Unmodelled
              end
          | Thrown e => Thrown e
          | Unmodelled => Unmodelled
          end
      | Thrown e => Thrown e
      | Unmodelled => Unmodelled
      end
  end.

Fixpoint typed_profiles (l : list (json * vec)) : reply (list (Z * vec)) :=
  match l with
  | [] => Done []
  | (id_value, embedding) :: rest =>
      match as_int id_value, typed_profiles rest with
      | Done fid, Done l' => Done ((fid, embedding) :: l')
      | _, _ => Unmodelled
      end
  end.

Definition rpc_rebuild_from_database (params : json) : RPC json :=
  profiles_value <- rlift (subscript params "face_profiles") ;;
  items <- rlift (as_list profiles_value) ;;
  read <- rlift (read_profiles items) ;;
  face_profiles <- rlift (typed_profiles read) ;;
  success <- call_engine (rebuild_from_database face_profiles) ;;
  rret (JObj [("success"%string, JBool success)]).

(** *** self.methods *)
Definition methods : list (string * (json -> RPC json)) :=
  [("add_vector"%string, rpc_add_vector);
   ("search_similar"%string, rpc_search_similar);
   ("check_duplicate"%string, rpc_check_duplicate);
   ("remove_vector"%string, rpc_remove_vector);
   ("get_stats"%string, rpc_get_stats);
   ("rebuild_from_database"%string, rpc_rebuild_from_database)].

Fixpoint find_method (name : string)
  (table : list (string * (json -> RPC json))) : option (json -> RPC json) :=
  match table with
  | [] => None
  | (n, h) :: rest => if String.eqb name n then Some h else find_method name rest
  end.

(** the text of [{method}] in the f-string *)
Definition format_value (value : json) : string :=
  match value with
  | JStr s => s
  | _ => py_str value
  end.

(** *** JSONRPCServer.handle_request; [Thrown] is an exception that leaves
    the method *)
Definition handle_request (request : json) : RPC json :=
  match request with
  | JObj fields =>
      let request_id := obj_get_default "id" JNull fields in
      let method := obj_get_default "method" JNull fields in
      let params := obj_get_default "params" (JObj []) fields in
      match method with
      | JArr _ | JObj _ => rlift (Thrown TypeError)
      | _ =>
          match
            match method with
            | JStr name => find_method name methods
            | _ => None
            end
          with
          | None =>
              rret (error_response request_id (-32601)
                      ("Method not found: " ++ format_value method))
          | Some handler =>
              fun s =>
                match handler params s with
                | (Done result, s') =>
                    (Done (result_response request_id result), s')
                | (Thrown e, s') =>
                    (Done (error_response request_id (-32603) (exn_str e)),
                     s')
                | (Unmodelled, s') => (Unmodelled, s')
                end
          end
      end
  | _ => rlift (Thrown AttributeError)
  end.

(** *** JSONRPCServer.run over the lines of stdin; the result lists the
    responses written to stdout and tells how the loop ended *)
Inductive ending :=
| EndOfInput
| ServerError (e : server_exn)
| NotModelled.

Definition parse_error : json := error_response JNull (-32700) "Parse error".

Fixpoint run (lines : list string) (s : engine)
  : list json * ending * engine :=
  match lines with
  | [] => ([], EndOfInput, s)
  | line :: rest =>
      let line := str_strip line in
      if String.eqb line "" then run rest s
      else
        match json_loads line with
        | None =>
            let '(out, e, s') := run rest s in (parse_error :: out, e, s')
        | Some request =>
            match handle_request request s with
            | (Done response, s') =>
                let '(out, e, s'') := run rest s' in
                (response :: out, e, s'')
            | (Thrown e, s') => ([], ServerError e, s')
            | (Unmodelled, s') => ([], NotModelled, s')
            end
        end
  end.

(** the lines that make the loop do something *)
Definition nonblank (line : string) : bool :=
  negb (String.eqb (str_strip line) "").

End Server.

(** ** A small runtime for the examples *)

Module Sample.

Definition is_space (c : ascii) : bool :=
  match nat_of_ascii c with
  | 9 | 10 | 11 | 12 | 13 | 28 | 29 | 30 | 31 | 32 => true
  | _ => false
  end%nat.

Fixpoint lstrip (s : string) : string :=
  match s with
  | EmptyString => EmptyString
  | String c rest => if is_space c then lstrip rest else s
  end.

Fixpoint rstrip (s : string) : string :=
  match s with
  | EmptyString => EmptyString
  | String c rest =>
      match rstrip rest with
      | EmptyString => if is_space c then EmptyString else String c EmptyString
      | rest' => String c rest'
      end
  end.

Definition strip (s : string) : string := rstrip (lstrip s).

(** the double quote *)
Definition dq : string := String (ascii_of_nat 34) EmptyString.

Definition quoted (s : string) : string := (dq ++ s ++ dq)%string.

(** four request lines and what [json.loads] makes of them *)
Definition line_stats : string :=
  ("{" ++ quoted "id" ++ ": 1, " ++ quoted "method" ++ ": "
       ++ quoted "get_stats" ++ "}")%string.

Definition line_ping : string :=
  ("{" ++ quoted "id" ++ ": 2, " ++ quoted "method" ++ ": "
       ++ quoted "ping" ++ "}")%string.

Definition line_array : string := "[]".

Definition line_truncated : string := ("{" ++ quoted "id" ++ ":")%string.

Definition loads (line : string) : option json :=
  if String.eqb line line_stats
  then Some (JObj [("id"%string, JInt 1);
                   ("method"%string, JStr "get_stats")])
  else if String.eqb line line_ping
  then Some (JObj [("id"%string, JInt 2); ("method"%string, JStr "ping")])
  else if String.eqb line line_array then Some (JArr [])
  else None.

Definition str_of (value : json) : string :=
  match value with
  | JNull => "None"
  | JBool true => "True"
  | JBool false => "False"
  | _ => ""
  end.

Definition str_of_exn (e : server_exn) : string :=
  match e with
  | KeyError key => ("'" ++ key ++ "'")%string
  | TypeError => "TypeError"
  | AttributeError => "AttributeError"
  | EngineError _ => "Exception"
  end.

End Sample.

#[export] Instance sample_runtime : Runtime :=
  {| str_strip := Sample.strip; json_loads := Sample.loads;
     py_str := Sample.str_of; exn_str := Sample.str_of_exn |}.

(** a request with an integer id, a method name and a parameter object *)
Definition make_request (request_id : Z) (method : string)
  (params : list (string * json)) : json :=
  JObj [("id"%string, JInt request_id); ("method"%string, JStr method);
        ("params"%string, JObj params)].

(** a vector as the JSON list of its components *)
Definition vec_json (v : vec) : json := JArr (map JFloat v).

(** the first parameter each handler reads with a subscript *)
Definition first_required : list (string * string) :=
  [("add_vector"%string, "face_profile_id"%string);
   ("search_similar"%string, "embedding"%string);
   ("check_duplicate"%string, "embedding"%string);
   ("remove_vector"%string, "face_profile_id"%string);
   ("rebuild_from_database"%string, "face_profiles"%string)].

(** the decoded lines on which [handle_request] raises: anything but a
    dictionary, and a dictionary whose method is a list or a dictionary *)
Definition fatal (request : json) : bool :=
  match request with
  | JObj fields =>
      match obj_get_default "method" JNull fields with
      | JArr _ | JObj _ => true
      | _ => false
      end
  | _ => true
  end.

(** a line that [json.loads] accepts *)
Definition decodable `{Runtime} (line : string) : bool :=
  match json_loads (str_strip line) with Some _ => true | None => false end.

(** the fields of [make_request] *)
Definition request_fields (request_id : Z) (method : string)
  (params : list (string * json)) : list (string * json) :=
  [("id"%string, JInt request_id); ("method"%string, JStr method);
   ("params"%string, JObj params)].

(** * Proofs *)

(** ** Dictionaries *)

Lemma mem_get_none {V} (k : Z) (m : dict V) :
  mem k m = false <-> get k m = None.
Proof.
  unfold mem. destruct (get k m); split; intro H; congruence.
Qed.

Lemma get_In_values {V} (k : Z) (v : V) (m : dict V) :
  get k m = Some v -> In v (map snd m).
Proof.
  induction m as [|[k' v'] m IH]; simpl; [discriminate|].
  destruct (Z.eqb k k'); intro H.
  - left. congruence.
  - right. auto.
Qed.

Lemma get_not_key {V} (k : Z) (m : dict V) :
  ~ In k (map fst m) -> get k m = None.
Proof.
  induction m as [|[k' v'] m IH]; simpl; intro H; [reflexivity|].
  destruct (Z.eqb_spec k k') as [->|_].
  - exfalso. apply H. now left.
  - apply IH. intro. apply H. now right.
Qed.

Lemma get_None_not_key {V} (k : Z) (m : dict V) :
  get k m = None -> ~ In k (map fst m).
Proof.
  induction m as [|[k' v'] m IH]; simpl; intros H; [tauto|].
  intros [E|E].
  - subst. rewrite Z.eqb_refl in H. discriminate.
  - destruct (Z.eqb k k'); [discriminate|]. now apply IH.
Qed.

Lemma set_fresh {V} (k : Z) (v : V) (m : dict V) :
  get k m = None -> set k v m = m ++ [(k, v)].
Proof.
  induction m as [|[k' v'] m IH]; simpl; intro H; [reflexivity|].
  destruct (Z.eqb k k'); [discriminate|]. now rewrite IH.
Qed.

Lemma existsb_eqb_In (x : Z) (l : list Z) :
  existsb (Z.eqb x) l = true <-> In x l.
Proof.
  rewrite existsb_exists. split.
  - intros [y [Hy E]]. apply Z.eqb_eq in E. now subst.
  - intro H. exists x. split; [assumption|apply Z.eqb_refl].
Qed.

(** ** Lists *)

Lemma zip_app {A B} (l1 l2 : list A) (r1 r2 : list B) :
  List.length l1 = List.length r1 ->
  combine (l1 ++ l2) (r1 ++ r2) = combine l1 r1 ++ combine l2 r2.
Proof.
  revert r1. induction l1 as [|a l1 IH]; intros [|b r1] H; simpl in *;
    try discriminate; [reflexivity|].
  f_equal. apply IH. lia.
Qed.

Lemma zip_fst {A B} (l : list A) (r : list B) :
  List.length l = List.length r -> map fst (combine l r) = l.
Proof.
  revert r. induction l as [|a l IH]; intros [|b r] H; simpl in *;
    try discriminate; [reflexivity|].
  f_equal. apply IH. lia.
Qed.

Lemma zip_snd {A B} (l : list A) (r : list B) :
  List.length l = List.length r -> map snd (combine l r) = r.
Proof.
  revert r. induction l as [|a l IH]; intros [|b r] H; simpl in *;
    try discriminate; [reflexivity|].
  f_equal. apply IH. lia.
Qed.

(** ** Dense numberings *)

Lemma positions_length n : List.length (positions n) = n.
Proof. unfold positions. now rewrite length_map, length_seq. Qed.

Lemma positions_S n : positions (S n) = positions n ++ [Z.of_nat n].
Proof.
  unfold positions. rewrite seq_S, map_app. reflexivity.
Qed.

Lemma positions_bound n p : In p (positions n) <-> (0 <= p < Z.of_nat n)%Z.
Proof.
  unfold positions. rewrite in_map_iff. split.
  - intros [i [<- Hi]]. apply in_seq in Hi. lia.
  - intros H. exists (Z.to_nat p). split; [lia|]. apply in_seq. lia.
Qed.

Lemma positions_NoDup n : NoDup (positions n).
Proof.
  unfold positions. apply Injective_map_NoDup.
  - intros a b H. lia.
  - apply seq_NoDup.
Qed.

Lemma enum_snoc ids x :
  enum (ids ++ [x]) = enum ids ++ [(Z.of_nat (List.length ids), x)].
Proof.
  unfold enum. rewrite length_app. simpl.
  replace (List.length ids + 1)%nat with (S (List.length ids)) by lia.
  rewrite positions_S.
  rewrite zip_app by (now rewrite positions_length).
  reflexivity.
Qed.

Lemma renum_snoc ids x :
  renum (ids ++ [x]) = renum ids ++ [(x, Z.of_nat (List.length ids))].
Proof.
  unfold renum. rewrite length_app. simpl.
  replace (List.length ids + 1)%nat with (S (List.length ids)) by lia.
  rewrite positions_S.
  rewrite zip_app by (now rewrite positions_length).
  reflexivity.
Qed.

Lemma enum_keys ids : map fst (enum ids) = positions (List.length ids).
Proof.
  unfold enum. rewrite zip_fst; [reflexivity|].
  now rewrite positions_length.
Qed.

Lemma enum_values ids : map snd (enum ids) = ids.
Proof.
  unfold enum. rewrite zip_snd; [reflexivity|].
  now rewrite positions_length.
Qed.

Lemma renum_keys ids : map fst (renum ids) = ids.
Proof.
  unfold renum. rewrite zip_fst; [reflexivity|].
  now rewrite positions_length.
Qed.

Lemma enum_length ids : List.length (enum ids) = List.length ids.
Proof. rewrite <- (enum_values ids) at 2. now rewrite length_map. Qed.

Lemma renum_length ids : List.length (renum ids) = List.length ids.
Proof. rewrite <- (renum_keys ids) at 2. now rewrite length_map. Qed.

Lemma set_enum ids x :
  set (Z.of_nat (List.length ids)) x (enum ids) = enum (ids ++ [x]).
Proof.
  rewrite enum_snoc. apply set_fresh. apply get_not_key.
  rewrite enum_keys, positions_bound. lia.
Qed.

Lemma set_renum ids x :
  ~ In x ids ->
  set x (Z.of_nat (List.length ids)) (renum ids) = renum (ids ++ [x]).
Proof.
  intro H. rewrite renum_snoc. apply set_fresh. apply get_not_key.
  now rewrite renum_keys.
Qed.

Lemma mem_renum x ids : mem x (renum ids) = existsb (Z.eqb x) ids.
Proof.
  destruct (existsb (Z.eqb x) ids) eqn:E.
  - apply existsb_eqb_In in E.
    destruct (mem x (renum ids)) eqn:F; [reflexivity|].
    apply mem_get_none, get_None_not_key in F.
    now rewrite renum_keys in F.
  - apply mem_get_none, get_not_key. rewrite renum_keys.
    intro H. apply existsb_eqb_In in H. congruence.
Qed.

(** ** Scores *)

Lemma Qltb_lt a b : Qltb a b = true <-> a < b.
Proof.
  unfold Qltb. rewrite negb_true_iff. split.
  - intro H. apply Qnot_le_lt. intro L. apply Qle_bool_iff in L. congruence.
  - intro H. destruct (Qle_bool b a) eqn:E; [|reflexivity].
    apply Qle_bool_iff in E. exfalso. now apply (Qlt_not_le a b).
Qed.

Lemma Qltb_ge a b : Qltb a b = false <-> b <= a.
Proof.
  unfold Qltb. rewrite negb_false_iff. apply Qle_bool_iff.
Qed.




(** ** The search loop *)

Section SearchLoop.

Lemma search_loop_scored idm k ex cands :
  forall results r,
    In r (search_loop idm k ex cands results) ->
    In r results \/ scored idm r.
Proof.
  induction cands as [|[dist idx] rest IH]; intros results r; simpl.
  - now left.
  - destruct (Z.eqb idx (-1) || negb (mem idx idm)); [apply IH|].
    destruct (get idx idm) as [fid|] eqn:G; [|apply IH].
    destruct (truthy ex && eq_opt fid ex); [apply IH|].
    set (new := {| face_profile_id := fid; similarity := similarity_of dist;
                   distance := dist;
                   confidence_level := confidence_of (similarity_of dist) |}).
    assert (Hnew : scored idm new)
      by (repeat split; exists idx; exact G).
    intro H.
    assert (In r (results ++ [new]) -> In r results \/ scored idm r).
    { intro I. apply in_app_or in I. destruct I as [I|I]; [auto|].
      simpl in I. destruct I as [<-|[]]. auto. }
    destruct (k <=? Z.of_nat (List.length (results ++ [new])))%Z; auto.
    apply IH in H. destruct H; auto.
Qed.

Lemma search_loop_exclude_zero idm k cands :
  forall results,
    search_loop idm k (Some 0%Z) cands results =
    search_loop idm k None cands results.
Proof.
  induction cands as [|[dist idx] rest IH]; intro results; simpl;
    [reflexivity|].
  destruct (Z.eqb idx (-1) || negb (mem idx idm)); [apply IH|].
  destruct (get idx idm) as [fid|]; [|apply IH].
  destruct (k <=? _)%Z; [reflexivity|apply IH].
Qed.

End SearchLoop.

(** ** The public methods *)

Ltac run :=
  unfold add_vector, add_vector_body, search_similar, search_similar_body,
    remove_vector, remove_vector_body, check_duplicate, load_from_redis,
    rebuild_from_database, rebuild_from_database_body, persist_if,
    save_to_redis, lift, try_except, bind, ret, raise, get_state, modify;
  simpl.

Section Methods.

Context {K : Kernels}.

Lemma normalize_length e : List.length (normalize e) = List.length e.
Proof.
  unfold normalize. destruct (Qltb 0 (linalg_norm e)); [|reflexivity].
  apply length_map.
Qed.

(** search is read-only and never raises *)
Lemma search_similar_returns e k ex s :
  exists results, search_similar e k ex s = (Returned results, s).
Proof.
  run. destruct (Z.eqb (ntotal (index s)) 0); [eauto|].
  destruct (negb (Nat.eqb (List.length e) (dimension s))); [eauto|].
  unfold index_search.
  destruct (negb (Nat.eqb (List.length (normalize e)) (index_d (index s))));
    [eauto|].
  destruct (py_min (k * 2) (ntotal (index s)) <=? 0)%Z; simpl; eauto.
Qed.

Lemma search_similar_scored e k ex s results r :
  search_similar e k ex s = (Returned results, s) ->
  In r results -> scored (id_map s) r.
Proof.
  run. destruct (Z.eqb (ntotal (index s)) 0);
    [intros E; inversion E; subst; contradiction|].
  destruct (negb (Nat.eqb (List.length e) (dimension s)));
    [intros E; inversion E; subst; contradiction|].
  unfold index_search.
  destruct (negb (Nat.eqb (List.length (normalize e)) (index_d (index s))));
    [intros E; inversion E; subst; contradiction|].
  destruct (py_min (k * 2) (ntotal (index s)) <=? 0)%Z; simpl;
    [intros E; inversion E; subst; contradiction|].
  intros E I. inversion E; subst.
  apply search_loop_scored in I. destruct I as [[]|I]. exact I.
Qed.

Lemma add_vector_bound (s : engine) (fid : Z) (e : vec) (persist : bool) :
  mem fid (reverse_map s) = true ->
  add_vector fid e persist s = (Returned false, s).
Proof.
  intro H. run. now rewrite H.
Qed.

Lemma add_vector_mismatch (s : engine) (fid : Z) (e : vec) (persist : bool) :
  List.length e <> dimension s ->
  add_vector fid e persist s = (Returned false, s).
Proof.
  intro H. apply Nat.eqb_neq in H. run. rewrite H. simpl.
  now destruct (mem fid (reverse_map s)).
Qed.

Lemma search_similar_mismatch (s : engine) (e : vec) (k : Z)
  (ex : option Z) :
  List.length e <> dimension s ->
  search_similar e k ex s = (Returned [], s).
Proof.
  intro H. apply Nat.eqb_neq in H. run. rewrite H. simpl.
  now destruct (Z.eqb (ntotal (index s)) 0).
Qed.

(** C9: inserting an id that is already bound returns false, does not raise,
    and leaves the whole engine (vectors, both maps, store) as it was. *)
Theorem add_vector_bound_id_rejected (s : engine) (fid : Z) (e : vec)
  (persist : bool) :
  mem fid (reverse_map s) = true ->
  add_vector fid e persist s = (Returned false, s).
Proof.
  apply add_vector_bound.
Qed.

(** C1 (amended): an embedding of the wrong length makes insert return false
    and search return the empty list, with the engine unchanged; the
    ValueError raised inside the method body (for an unbound id, resp. a
    non-empty index) is caught by the method and never reaches the caller. *)
Theorem dimension_mismatch_is_swallowed (s : engine) (fid : Z) (e : vec)
  (persist : bool) (k : Z) (ex : option Z) :
  List.length e <> dimension s ->
  add_vector fid e persist s = (Returned false, s) /\
  search_similar e k ex s = (Returned [], s) /\
  (mem fid (reverse_map s) = false ->
   add_vector_body fid e persist s = (Raised ValueError, s)) /\
  (ntotal (index s) <> 0%Z ->
   search_similar_body e k ex s = (Raised ValueError, s)).
Proof.
  intro H.
  split; [now apply add_vector_mismatch|].
  split; [now apply search_similar_mismatch|].
  apply Nat.eqb_neq in H. run. rewrite H. simpl. split.
  - now intros ->.
  - intro N. apply Z.eqb_neq in N. now rewrite N.
Qed.

(** C8: an exclusion id of 0 is falsy, so search and check_duplicate behave
    exactly as without an exclusion id; in particular an enrolled profile 0
    is still returned and still counts as a duplicate. *)
Theorem exclude_zero_is_no_exclusion (s : engine) (e : vec) (k : Z) :
  search_similar e k (Some 0%Z) s = search_similar e k None s /\
  check_duplicate e (Some 0%Z) s = check_duplicate e None s /\
  map face_profile_id
    (match fst (search_similar (K := exact_kernels) e1 1 (Some 0%Z) zero_face)
     with Returned results => results | Raised _ => [] end) = [0%Z] /\
  (exists m,
     fst (check_duplicate (K := exact_kernels) e1 (Some 0%Z) zero_face)
     = Returned (true, Some m) /\ face_profile_id m = 0%Z).
Proof.
  cut (search_similar e k (Some 0%Z) s = search_similar e k None s /\
       check_duplicate e (Some 0%Z) s = check_duplicate e None s).
  { intros [A B]. split; [exact A|]. split; [exact B|].
    split; [vm_compute; reflexivity|].
    eexists. split; vm_compute; reflexivity. }
  assert (E : forall k', search_similar e k' (Some 0%Z) s
                         = search_similar e k' None s).
  { intro k'. run. destruct (Z.eqb (ntotal (index s)) 0); [reflexivity|].
    destruct (negb (Nat.eqb (List.length e) (dimension s))); [reflexivity|].
    destruct (index_search (index s) (normalize e)
                (py_min (k' * 2) (ntotal (index s)))); simpl; [reflexivity|].
    now rewrite search_loop_exclude_zero. }
  split; [apply E|].
  unfold check_duplicate, bind. now rewrite E.
Qed.

(** C4: check_duplicate returns what search with k = 1 and the same exclusion
    yields: the first match as best_match, flagged as duplicate exactly when
    its similarity reaches the high threshold 0.85, and (False, None) when
    there is no match. *)
Theorem check_duplicate_is_search_one (s : engine) (e : vec) (ex : option Z) :
  exists results is_duplicate,
    search_similar e 1 ex s = (Returned results, s) /\
    check_duplicate e ex s = (Returned (is_duplicate, hd_error results), s) /\
    (is_duplicate = true <->
     exists m, hd_error results = Some m /\ 85 # 100 <= similarity m) /\
    (results = [] -> is_duplicate = false).
Proof.
  destruct (search_similar_returns e 1 ex s) as [results E].
  exists results.
  unfold check_duplicate, bind. rewrite E.
  destruct results as [|m rest]; simpl.
  - exists false. repeat split; try discriminate.
    intros [m [F _]]. discriminate.
  - exists (Qle_bool HIGH_CONFIDENCE_THRESHOLD (similarity m)).
    repeat split; try discriminate.
    + intro H. exists m. split; [reflexivity|]. now apply Qle_bool_iff.
    + intros [m' [F L]]. inversion F; subst. now apply Qle_bool_iff.
Qed.


End Methods.

(** ** Insertion *)

Section Insertion.

Context {K : Kernels}.

Lemma add_vector_fresh (s : engine) (fid : Z) (e : vec) (persist : bool) :
  mem fid (reverse_map s) = false ->
  List.length e = dimension s ->
  index_d (index s) = dimension s ->
  add_vector fid e persist s
  = (Returned true, persisted persist (inserted fid e s)).
Proof.
  intros Hm Hl Hd. unfold persisted, inserted. run. rewrite Hm.
  rewrite Hl, Nat.eqb_refl. simpl.
  unfold index_add. simpl.
  rewrite normalize_length, Hl, Hd, Nat.eqb_refl. simpl.
  unfold set_reverse_map, set_id_map, set_index, set_redis_client,
    snapshot_of. simpl.
  destruct (redis_client s) as [r|]; [|reflexivity].
  destruct persist; reflexivity.
Qed.

Lemma add_vector_cases (s : engine) (fid : Z) (e : vec) (persist : bool) :
  index_d (index s) = dimension s ->
  add_vector fid e persist s = (Returned false, s) \/
  (mem fid (reverse_map s) = false /\ List.length e = dimension s /\
   add_vector fid e persist s
   = (Returned true, persisted persist (inserted fid e s))).
Proof.
  intro Hd. destruct (mem fid (reverse_map s)) eqn:Hm.
  - left. now apply add_vector_bound.
  - destruct (Nat.eq_dec (List.length e) (dimension s)) as [Hl|Hl].
    + right. repeat split; auto. now apply add_vector_fresh.
    + left. now apply add_vector_mismatch.
Qed.

Lemma wf_persisted persist s : wf s -> wf (persisted persist s).
Proof.
  unfold persisted. destruct (redis_client s); [|auto].
  destruct persist; auto.
Qed.

Lemma persisted_fields persist s :
  dimension (persisted persist s) = dimension s /\
  index (persisted persist s) = index s /\
  id_map (persisted persist s) = id_map s /\
  reverse_map (persisted persist s) = reverse_map s.
Proof.
  unfold persisted. destruct (redis_client s); [|auto].
  destruct persist; auto.
Qed.

Lemma wf_unbound s fid :
  wf s -> mem fid (reverse_map s) = false -> ~ In fid (ext_ids s).
Proof.
  intros (_ & _ & _ & _ & _ & Hr) Hm.
  rewrite Hr, mem_renum in Hm. intro I. apply existsb_eqb_In in I. congruence.
Qed.

Lemma wf_inserted s fid e :
  wf s -> mem fid (reverse_map s) = false -> List.length e = dimension s ->
  wf (inserted fid e s) /\ ext_ids (inserted fid e s) = ext_ids s ++ [fid].
Proof.
  intros W Hm Hl. pose proof (wf_unbound s fid W Hm) as Hn.
  destruct W as (Hd & Hv & Hnd & Hlen & Hi & Hr).
  remember (ext_ids s) as ids eqn:Eids.
  assert (Hi' : id_map (inserted fid e s) = enum (ids ++ [fid])).
  { simpl. unfold ntotal. rewrite <- Hlen, Hi. apply set_enum. }
  assert (Hx : ext_ids (inserted fid e s) = ids ++ [fid]).
  { unfold ext_ids. rewrite Hi'. apply enum_values. }
  split; [|exact Hx].
  unfold wf. rewrite Hx. repeat split.
  - exact Hd.
  - simpl. apply Forall_app. split; [exact Hv|].
    constructor; [|constructor]. now rewrite normalize_length.
  - apply NoDup_app; [exact Hnd|repeat constructor; intros []|].
    intros a Ha [<-|[]]. contradiction.
  - simpl. rewrite !length_app. simpl. lia.
  - exact Hi'.
  - simpl. unfold ntotal. rewrite <- Hlen, Hr. now apply set_renum.
Qed.

Lemma wf_add_vector s fid e persist :
  wf s -> wf (snd (add_vector fid e persist s)).
Proof.
  intro W. destruct (add_vector_cases s fid e persist) as [E|(Hm & Hl & E)];
    [apply W| |]; rewrite E; simpl; [exact W|].
  apply wf_persisted. now apply wf_inserted.
Qed.

End Insertion.

(** ** Removal *)

Section Removal.

Context {K : Kernels}.

Lemma index_reconstruct_middle i pre row rows :
  xb i = pre ++ row :: rows ->
  index_reconstruct i (Z.of_nat (List.length pre)) = inr row.
Proof.
  intro E. unfold index_reconstruct, ntotal. rewrite E.
  rewrite length_app. simpl.
  replace ((0 <=? Z.of_nat (List.length pre))%Z) with true
    by (symmetry; apply Z.leb_le; lia).
  replace ((Z.of_nat (List.length pre)
            <? Z.of_nat (List.length pre + S (List.length rows)))%Z)
    with true by (symmetry; apply Z.ltb_lt; lia).
  simpl. rewrite Nat2Z.id.
  rewrite nth_error_app2 by lia. rewrite Nat.sub_diag. reflexivity.
Qed.

Lemma remove_loop_spec i fid :
  forall ids rows pre a vectors acc,
    xb i = pre ++ rows ->
    a = List.length pre ->
    List.length rows = List.length ids ->
    List.length vectors = List.length acc ->
    remove_loop i fid
      (combine (map Z.of_nat (seq a (List.length ids))) ids)
      vectors (enum acc)
    = inr (vectors ++ map fst (filter (keeps fid) (combine rows ids)),
           enum (acc ++ map snd (filter (keeps fid) (combine rows ids)))).
Proof.
  induction ids as [|x ids IH]; intros rows pre a vectors acc Hxb Ha Hl Hv.
  - destruct rows; [|discriminate]. simpl. now rewrite !app_nil_r.
  - destruct rows as [|row rows]; [discriminate|]. simpl in Hl.
    simpl. change (keeps fid (row, x)) with (negb (Z.eqb x fid)).
    destruct (Z.eqb x fid); simpl.
    + rewrite (IH rows (pre ++ [row]) (S a) vectors acc).
      * reflexivity.
      * now rewrite <- app_assoc.
      * rewrite length_app. simpl. lia.
      * lia.
      * exact Hv.
    + subst a. rewrite (index_reconstruct_middle i pre row rows Hxb).
      replace (Z.of_nat (List.length (vectors ++ [row])) - 1)%Z
        with (Z.of_nat (List.length acc))
        by (rewrite length_app; simpl; lia).
      rewrite set_enum.
      rewrite (IH rows (pre ++ [row]) (S (List.length pre))
                 (vectors ++ [row]) (acc ++ [x])).
      * now rewrite <- !app_assoc.
      * now rewrite <- app_assoc.
      * rewrite length_app. simpl. lia.
      * lia.
      * rewrite !length_app. simpl. lia.
Qed.

Lemma invert_acc :
  forall (ks vs : list Z) (acc : dict Z),
    List.length ks = List.length vs ->
    NoDup vs ->
    (forall v, In v vs -> ~ In v (map fst acc)) ->
    fold_left (fun acc kv => set (snd kv) (fst kv) acc) (combine ks vs) acc
    = acc ++ combine vs ks.
Proof.
  induction ks as [|k ks IH]; intros [|v vs] acc Hl Hn Hf;
    try discriminate; simpl.
  - now rewrite app_nil_r.
  - inversion Hn as [|? ? Hv Hn']; subst.
    rewrite set_fresh by (apply get_not_key, Hf; now left).
    rewrite IH.
    + now rewrite <- app_assoc.
    + simpl in Hl. lia.
    + exact Hn'.
    + intros w Hw. rewrite map_app, in_app_iff. simpl.
      intros [I|[<-|[]]]; [|contradiction].
      apply (Hf w); [now right|exact I].
Qed.

Lemma invert_enum ids : NoDup ids -> invert (enum ids) = renum ids.
Proof.
  intro H. unfold invert, items, enum.
  rewrite invert_acc; [reflexivity| |exact H|intros v _ []].
  apply positions_length.
Qed.

Lemma filter_zip_snd fid :
  forall (rows : list vec) ids,
    List.length rows = List.length ids ->
    map snd (filter (keeps fid) (combine rows ids))
    = filter (fun x => negb (Z.eqb x fid)) ids.
Proof.
  induction rows as [|r rows IH]; intros [|x ids] H; try discriminate;
    [reflexivity|].
  simpl. change (keeps fid (r, x)) with (negb (Z.eqb x fid)).
  destruct (Z.eqb x fid); simpl.
  - apply IH. simpl in H. lia.
  - f_equal. apply IH. simpl in H. lia.
Qed.

Lemma filter_absent fid ids :
  ~ In fid ids -> filter (fun x => negb (Z.eqb x fid)) ids = ids.
Proof.
  induction ids as [|x ids IH]; intro H; [reflexivity|]. simpl.
  destruct (Z.eqb_spec x fid) as [->|_]; simpl.
  - exfalso. apply H. now left.
  - f_equal. apply IH. intro. apply H. now right.
Qed.

Lemma filter_one_less fid ids :
  NoDup ids -> In fid ids ->
  S (List.length (filter (fun x => negb (Z.eqb x fid)) ids))
  = List.length ids.
Proof.
  induction ids as [|x ids IH]; intros Hn Hi; [contradiction|].
  inversion Hn as [|? ? Hx Hn']; subst. simpl.
  destruct (Z.eqb_spec x fid) as [->|Hne]; simpl.
  - now rewrite filter_absent.
  - f_equal. apply IH; [exact Hn'|]. destruct Hi; [contradiction|assumption].
Qed.

Lemma filter_drops fid ids :
  ~ In fid (filter (fun x => negb (Z.eqb x fid)) ids).
Proof.
  intro H. apply filter_In in H. destruct H as [_ H].
  now rewrite Z.eqb_refl in H.
Qed.

End Removal.

Section RemoveVector.

Context {K : Kernels}.

Lemma wf_bound s fid :
  wf s -> mem fid (reverse_map s) = true -> In fid (ext_ids s).
Proof.
  intros (_ & _ & _ & _ & _ & Hr) Hm.
  rewrite Hr, mem_renum in Hm. now apply existsb_eqb_In.
Qed.

Lemma survivors_ids s fid :
  wf s ->
  map snd (survivors fid s)
  = filter (fun x => negb (Z.eqb x fid)) (ext_ids s).
Proof.
  intros (_ & _ & _ & Hlen & _ & _). unfold survivors.
  now apply filter_zip_snd.
Qed.

Lemma survivors_rows s fid :
  wf s ->
  forallb (fun v => Nat.eqb (List.length v) (dimension s))
          (map fst (survivors fid s)) = true.
Proof.
  intros (_ & Hv & _ & _ & _ & _). apply forallb_forall. intros v Hin.
  apply Nat.eqb_eq. apply in_map_iff in Hin. destruct Hin as [[v' x] [<- Hin]].
  unfold survivors in Hin. apply filter_In in Hin. destruct Hin as [Hin _].
  apply in_combine_l in Hin. rewrite Forall_forall in Hv. now apply Hv.
Qed.

Lemma remove_vector_unbound (s : engine) (fid : Z) (persist : bool) :
  mem fid (reverse_map s) = false ->
  remove_vector fid persist s = (Returned false, s).
Proof.
  intro H. run. now rewrite H.
Qed.

Lemma remove_vector_bound (s : engine) (fid : Z) (persist : bool) :
  wf s -> mem fid (reverse_map s) = true ->
  remove_vector fid persist s
  = (Returned true, persisted persist (removed fid s)).
Proof.
  intros W Hm.
  pose proof (survivors_ids s fid W) as Hids.
  pose proof (survivors_rows s fid W) as Hrows.
  destruct W as (Hd & Hv & Hnd & Hlen & Hi & Hr).
  assert (Hinv : invert (enum (map snd (survivors fid s)))
                 = renum (map snd (survivors fid s))).
  { apply invert_enum. rewrite Hids. now apply NoDup_filter. }
  assert (Hloop : remove_loop (index s) fid (items (id_map s)) [] []
                  = inr (map fst (survivors fid s),
                         enum (map snd (survivors fid s)))).
  { unfold items. rewrite Hi at 1. unfold enum at 1, positions.
    change (@nil (Z * Z)) with (enum []).
    rewrite (remove_loop_spec (index s) fid (ext_ids s) (xb (index s)) []
               0%nat [] []); auto. }
  unfold persisted, removed. run. rewrite Hm. simpl. rewrite Hloop. simpl.
  rewrite Hinv.
  destruct (map fst (survivors fid s)) as [|v vs] eqn:Ev; simpl.
  - unfold set_reverse_map, set_id_map, set_index, set_redis_client,
      snapshot_of, IndexFlatL2. simpl.
    destruct (redis_client s); [destruct persist|]; reflexivity.
  - unfold index_add. simpl. simpl in Hrows. rewrite Hrows. simpl.
    unfold set_reverse_map, set_id_map, set_index, set_redis_client,
      snapshot_of, IndexFlatL2. simpl.
    destruct (redis_client s); [destruct persist|]; reflexivity.
Qed.

Lemma wf_removed s fid : wf s -> wf (removed fid s).
Proof.
  intro W. pose proof (survivors_ids s fid W) as Hids.
  pose proof (survivors_rows s fid W) as Hrows.
  destruct W as (Hd & Hv & Hnd & Hlen & Hi & Hr).
  assert (Hx : ext_ids (removed fid s) = map snd (survivors fid s)).
  { unfold ext_ids at 1. simpl. apply enum_values. }
  unfold wf. rewrite Hx. simpl. repeat split.
  - apply Forall_forall. intros v Hin. apply Nat.eqb_eq.
    rewrite forallb_forall in Hrows. now apply Hrows.
  - rewrite Hids. now apply NoDup_filter.
  - now rewrite !length_map.
Qed.

Lemma wf_remove_vector s fid persist :
  wf s -> wf (snd (remove_vector fid persist s)).
Proof.
  intro W. destruct (mem fid (reverse_map s)) eqn:Hm.
  - rewrite remove_vector_bound by assumption. simpl.
    apply wf_persisted. now apply wf_removed.
  - now rewrite remove_vector_unbound.
Qed.

End RemoveVector.

(** C6: removing a bound id rebuilds the index from the other stored rows,
    kept in their order and renumbered densely from 0; the count drops by
    one and no search on the result returns the id.  Removing an unbound id
    returns false and changes nothing. *)
Theorem remove_vector_rebuilds {K : Kernels} (s : engine) (fid : Z)
  (persist : bool) :
  (wf s -> mem fid (reverse_map s) = true ->
   let s' := snd (remove_vector fid persist s) in
   fst (remove_vector fid persist s) = Returned true /\
   xb (index s') = map fst (survivors fid s) /\
   map snd (survivors fid s)
   = filter (fun x => negb (Z.eqb x fid)) (ext_ids s) /\
   id_map s' = enum (map snd (survivors fid s)) /\
   reverse_map s' = renum (map snd (survivors fid s)) /\
   ntotal (index s') = (ntotal (index s) - 1)%Z /\
   forall q k ex results r,
     fst (search_similar q k ex s') = Returned results ->
     In r results -> face_profile_id r <> fid) /\
  (mem fid (reverse_map s) = false ->
   remove_vector fid persist s = (Returned false, s)).
Proof.
  split; [|apply remove_vector_unbound].
  intros W Hm. rewrite (remove_vector_bound s fid persist W Hm). simpl.
  destruct (persisted_fields persist (removed fid s)) as (_ & Ei & Em & Er).
  rewrite Ei, Em, Er. simpl.
  pose proof (survivors_ids s fid W) as Hids.
  repeat split; auto.
  - unfold ntotal. simpl.
    pose proof (wf_bound s fid W Hm) as Hin.
    destruct W as (_ & _ & Hnd & Hlen & _ & _).
    pose proof (filter_one_less fid (ext_ids s) Hnd Hin) as Hone.
    rewrite length_map, <- (length_map snd), Hids, <- Hlen. lia.
  - intros q k ex results r E I F.
    destruct (search_similar_returns q k ex (persisted persist (removed fid s)))
      as [rs E'].
    rewrite E' in E. simpl in E. inversion E; subst rs.
    destruct (search_similar_scored q k ex _ results r E' I)
      as (_ & _ & idx & G).
    rewrite Em in G. simpl in G. apply get_In_values in G.
    rewrite enum_values, Hids, F in G. now apply filter_drops in G.
Qed.

(** ** Rebuild *)

Section Rebuild.

Context {K : Kernels}.

Lemma persisted_false s : persisted false s = s.
Proof. unfold persisted. now destruct (redis_client s). Qed.

Lemma inserted_loaded dim kept r fid e :
  ~ In fid (map fst kept) ->
  inserted fid e (loaded dim kept r) = loaded dim (kept ++ [(fid, e)]) r.
Proof.
  intro H. unfold inserted, loaded. simpl. unfold ntotal. simpl.
  rewrite !map_app. simpl. rewrite length_map.
  rewrite <- (length_map fst kept), set_enum, set_renum by exact H.
  reflexivity.
Qed.

Lemma add_all_loaded dim r :
  forall recs kept c,
    add_all recs c (loaded dim kept r)
    = (Returned (c + List.length (accepted dim (map fst kept) recs))%nat,
       loaded dim (kept ++ accepted dim (map fst kept) recs) r).
Proof.
  induction recs as [|[fid e] recs IH]; intros kept c; simpl.
  - unfold ret. now rewrite Nat.add_0_r, app_nil_r.
  - unfold bind.
    destruct (existsb (Z.eqb fid) (map fst kept)) eqn:Ex; simpl.
    + rewrite add_vector_bound by (simpl; now rewrite mem_renum).
      apply IH.
    + destruct (Nat.eqb (List.length e) dim) eqn:El; simpl.
      * apply Nat.eqb_eq in El.
        rewrite add_vector_fresh;
          [|simpl; now rewrite mem_renum|exact El|reflexivity].
        rewrite persisted_false, inserted_loaded.
        -- rewrite IH, map_app. simpl. rewrite <- app_assoc. simpl.
           f_equal. f_equal. lia.
        -- intro I. apply existsb_eqb_In in I. congruence.
      * apply Nat.eqb_neq in El.
        rewrite add_vector_mismatch by exact El. apply IH.
Qed.

Lemma rebuild_from_database_loaded (s : engine) (recs : list (Z * vec)) :
  rebuild_from_database recs s
  = (Returned true,
     persisted true (loaded (dimension s) (accepted (dimension s) [] recs)
                       (redis_client s))).
Proof.
  unfold rebuild_from_database, rebuild_from_database_body, try_except.
  unfold bind at 1. unfold get_state at 1.
  unfold bind at 1. unfold modify at 1.
  unfold bind at 1. unfold modify at 1.
  unfold bind at 1. unfold modify at 1.
  change (set_reverse_map [] (set_id_map []
            (set_index (IndexFlatL2 (dimension s)) s)))
    with (loaded (dimension s) [] (redis_client s)).
  unfold bind at 1. rewrite add_all_loaded. simpl.
  unfold persisted. run.
  destruct (redis_client s); reflexivity.
Qed.

Lemma accepted_first_occurrences dim :
  forall recs seen,
    Forall (fun p => List.length (snd p) = dim) recs ->
    accepted dim seen recs = first_occurrences seen recs.
Proof.
  induction recs as [|[fid e] recs IH]; intros seen H; [reflexivity|].
  inversion H as [|? ? Hl H']; subst. simpl in *.
  rewrite Nat.eqb_refl. simpl. rewrite orb_false_r.
  destruct (existsb (Z.eqb fid) seen); [now apply IH|].
  f_equal. now apply IH.
Qed.

Lemma wf_loaded dim kept r :
  NoDup (map fst kept) ->
  Forall (fun p => List.length (snd p) = dim) kept ->
  wf (loaded dim kept r).
Proof.
  intros Hn Hf.
  assert (Hx : ext_ids (loaded dim kept r) = map fst kept)
    by (unfold ext_ids; simpl; apply enum_values).
  unfold wf. rewrite Hx. simpl. repeat split.
  - apply Forall_forall. intros v Hin. apply in_map_iff in Hin.
    destruct Hin as [[fid e] [<- Hin]]. rewrite normalize_length.
    rewrite Forall_forall in Hf. apply (Hf _ Hin).
  - exact Hn.
  - now rewrite !length_map.
Qed.

Lemma accepted_wf dim :
  forall recs seen,
    NoDup seen ->
    NoDup (seen ++ map fst (accepted dim seen recs)) /\
    Forall (fun p => List.length (snd p) = dim) (accepted dim seen recs).
Proof.
  induction recs as [|[fid e] recs IH]; intros seen Hn; simpl.
  - rewrite app_nil_r. auto.
  - destruct (existsb (Z.eqb fid) seen) eqn:Ex; simpl; [now apply IH|].
    destruct (Nat.eqb (List.length e) dim) eqn:El; simpl; [|now apply IH].
    assert (Hn' : NoDup (seen ++ [fid])).
    { apply NoDup_app; [exact Hn|repeat constructor; intros []|].
      intros a Ha [<-|[]]. apply existsb_eqb_In in Ha. congruence. }
    destruct (IH (seen ++ [fid]) Hn') as [A B].
    rewrite <- app_assoc in A. simpl in A.
    split; [exact A|]. constructor; [|exact B]. now apply Nat.eqb_eq.
Qed.

Lemma wf_rebuild_from_database s recs :
  wf (snd (rebuild_from_database recs s)).
Proof.
  rewrite rebuild_from_database_loaded. simpl. apply wf_persisted.
  destruct (accepted_wf (dimension s) recs [] (NoDup_nil _)) as [A B].
  now apply wf_loaded.
Qed.

End Rebuild.


(** C10: insert stores, and search queries with, the embedding divided by its
    norm; an embedding of norm zero goes through unchanged. *)
Theorem embeddings_are_normalized {K : Kernels} (s : engine) (fid : Z)
  (e : vec) (persist : bool) (k : Z) (ex : option Z) :
  List.length e = dimension s ->
  index_d (index s) = dimension s ->
  (0 < linalg_norm e ->
   normalize e = map (fun x => x / linalg_norm e) e) /\
  (linalg_norm e == 0 -> normalize e = e) /\
  (mem fid (reverse_map s) = false ->
   fst (add_vector fid e persist s) = Returned true /\
   xb (index (snd (add_vector fid e persist s)))
   = xb (index s) ++ [normalize e]) /\
  (ntotal (index s) <> 0%Z -> (0 < k)%Z ->
   search_similar e k ex s
   = (Returned
        (search_loop (id_map s) k ex
           (flat_search (xb (index s)) (normalize e)
              (Z.to_nat (py_min (k * 2) (ntotal (index s))))) []), s)).
Proof.
  intros Hl Hd. repeat split.
  - intro H. unfold normalize. apply Qltb_lt in H. now rewrite H.
  - intro H. unfold normalize.
    replace (Qltb 0 (linalg_norm e)) with false; [reflexivity|].
    symmetry. apply Qltb_ge. rewrite H. apply Qle_refl.
  - now rewrite add_vector_fresh.
  - rewrite add_vector_fresh by assumption. simpl.
    destruct (persisted_fields persist (inserted fid e s)) as (_ & Ei & _).
    now rewrite Ei.
  - intros Hn Hk. run. apply Z.eqb_neq in Hn. rewrite Hn.
    rewrite Hl, Nat.eqb_refl. simpl. unfold index_search.
    rewrite normalize_length, Hl, Hd, Nat.eqb_refl. simpl.
    replace (py_min (k * 2) (ntotal (index s)) <=? 0)%Z with false;
      [reflexivity|].
    symmetry. apply Z.leb_gt. apply Z.eqb_neq in Hn.
    unfold py_min, ntotal in *.
    destruct (Z.ltb_spec (Z.of_nat (List.length (xb (index s)))) (k * 2));
      lia.
Qed.

(** ** Loading and the identity-map invariant *)

Lemma get_zip_inverse :
  forall (ks vs : list Z) k v,
    List.length ks = List.length vs ->
    NoDup vs ->
    get k (combine ks vs) = Some v ->
    get v (combine vs ks) = Some k.
Proof.
  induction ks as [|k0 ks IH]; intros [|v0 vs] k v Hl Hn; simpl;
    try discriminate.
  inversion Hn as [|? ? Hv Hn']; subst.
  destruct (Z.eqb_spec k k0) as [->|Hk].
  - intro E. inversion E; subst. now rewrite Z.eqb_refl.
  - intro G. destruct (Z.eqb_spec v v0) as [->|_].
    + exfalso. apply Hv. apply get_In_values in G.
      rewrite zip_snd in G by (simpl in Hl; lia). exact G.
    + apply IH; auto.
Qed.

Lemma wf_bijective s : wf s -> bijective s.
Proof.
  intros (_ & _ & Hnd & Hlen & Hi & Hr). split.
  - unfold len, ntotal. now rewrite Hr, renum_length, Hlen.
  - intros x p G. rewrite Hr in G. rewrite Hi.
    unfold renum in G. unfold enum. apply get_zip_inverse; auto.
    + now rewrite positions_length.
    + apply positions_NoDup.
Qed.

Lemma wf_empty dim r :
  wf {| dimension := dim; index := IndexFlatL2 dim; id_map := [];
        reverse_map := []; redis_client := r |}.
Proof.
  unfold wf, ext_ids. simpl. repeat split; constructor.
Qed.

(** construction without a store, or with a store that has no structure key,
    starts empty *)
Lemma wf_FaceVectorIndex_fresh dim store :
  (forall r, store = Some r -> kv_index r = None) ->
  wf (FaceVectorIndex dim store).
Proof.
  intro H. unfold FaceVectorIndex. run.
  destruct store as [r|]; simpl; [|apply wf_empty].
  rewrite (H r eq_refl). simpl. apply wf_empty.
Qed.

(** construction over a snapshot that [save_to_redis] wrote from a
    well-formed engine of the same dimension *)
Lemma wf_FaceVectorIndex_snapshot s n :
  wf s -> wf (FaceVectorIndex (dimension s) (Some (snapshot_of s n))).
Proof.
  intros (Hd & Hv & Hnd & Hlen & Hi & Hr).
  unfold FaceVectorIndex. run. unfold wf, ext_ids. simpl. auto 10.
Qed.



Lemma check_duplicate_read_only {K : Kernels} e ex s :
  snd (check_duplicate e ex s) = s.
Proof.
  unfold check_duplicate, bind.
  destruct (search_similar_returns e 1 ex s) as [rs E]. rewrite E.
  now destruct rs.
Qed.

(** every public method keeps the invariant, and with it the bijection *)
Lemma public_methods_keep_wf {K : Kernels} (s : engine) :
  wf s ->
  (forall fid e persist, wf (snd (add_vector fid e persist s))) /\
  (forall fid persist, wf (snd (remove_vector fid persist s))) /\
  (forall recs, wf (snd (rebuild_from_database recs s))) /\
  (forall e k ex, snd (search_similar e k ex s) = s) /\
  (forall e ex, snd (check_duplicate e ex s) = s) /\
  bijective s.
Proof.
  intro W.
  split; [intros; now apply wf_add_vector|].
  split; [intros; now apply wf_remove_vector|].
  split; [intros; apply wf_rebuild_from_database|].
  split; [|split; [intros; apply check_duplicate_read_only
                  |now apply wf_bijective]].
  intros e k ex. destruct (search_similar_returns e k ex s) as [rs E].
  now rewrite E.
Qed.

(** ** Concrete runs *)

Lemma wf_two_faces : wf two_faces.
Proof.
  unfold two_faces. apply wf_add_vector, wf_add_vector.
  apply wf_FaceVectorIndex_fresh. discriminate.
Qed.

(** C1, as stated, fails: with a two-component embedding on the
    four-dimensional engine both methods return an ordinary value. *)
Lemma dimension_mismatch_not_raised :
  List.length [1; 0] <> dimension two_faces /\
  fst (add_vector 7 [1; 0] true two_faces) = Returned false /\
  fst (search_similar [1; 0] 10 None two_faces) = Returned [] /\
  ~ (exists s', add_vector 7 [1; 0] true two_faces
                = (Raised ValueError, s')) /\
  ~ (exists s', search_similar [1; 0] 10 None two_faces
                = (Raised ValueError, s')).
Proof.
  split; [vm_compute; discriminate|].
  split; [reflexivity|]. split; [reflexivity|].
  split; intros [s' H]; vm_compute in H; discriminate H.
Qed.


Lemma add_vector_bound_id_rejected_witness :
  mem 1 (reverse_map two_faces) = true /\
  add_vector 1 e2 true two_faces = (Returned false, two_faces).
Proof.
  split; [reflexivity|].
  apply (add_vector_bound_id_rejected two_faces 1 e2 true). reflexivity.
Defined.

Lemma dimension_mismatch_is_swallowed_witness :
  List.length [1; 0] <> dimension two_faces /\
  add_vector 7 [1; 0] true two_faces = (Returned false, two_faces) /\
  search_similar [1; 0] 10 None two_faces = (Returned [], two_faces).
Proof.
  assert (H : List.length [1; 0] <> dimension two_faces)
    by (vm_compute; discriminate).
  split; [exact H|].
  destruct (dimension_mismatch_is_swallowed two_faces 7 [1; 0] true 10 None H)
    as (A & B & _).
  split; [exact A|exact B].
Defined.

Lemma check_duplicate_is_search_one_witness :
  exists results is_duplicate,
    search_similar e1 1 None two_faces = (Returned results, two_faces) /\
    check_duplicate e1 None two_faces
    = (Returned (is_duplicate, hd_error results), two_faces) /\
    (is_duplicate = true <->
     exists m, hd_error results = Some m /\ 85 # 100 <= similarity m) /\
    (results = [] -> is_duplicate = false).
Proof.
  apply (check_duplicate_is_search_one two_faces e1 None).
Defined.


Lemma remove_vector_rebuilds_witness :
  wf two_faces /\ mem 1 (reverse_map two_faces) = true /\
  fst (remove_vector 1 true two_faces) = Returned true /\
  ntotal (index (snd (remove_vector 1 true two_faces)))
  = (ntotal (index two_faces) - 1)%Z /\
  remove_vector 9 true two_faces = (Returned false, two_faces).
Proof.
  assert (Hm : mem 1 (reverse_map two_faces) = true) by reflexivity.
  split; [exact wf_two_faces|]. split; [exact Hm|].
  destruct (remove_vector_rebuilds two_faces 1 true) as [B _].
  destruct (B wf_two_faces Hm) as (A1 & _ & _ & _ & _ & A2 & _).
  destruct (remove_vector_rebuilds two_faces 9 true) as [_ U].
  split; [exact A1|]. split; [exact A2|]. apply U. reflexivity.
Defined.


Lemma embeddings_are_normalized_witness :
  List.length [3; 4; 0; 0] = dimension two_faces /\
  index_d (index two_faces) = dimension two_faces /\
  0 < linalg_norm [3; 4; 0; 0] /\
  normalize [3; 4; 0; 0]
  = map (fun x => x / linalg_norm [3; 4; 0; 0]) [3; 4; 0; 0] /\
  (linalg_norm [0; 0; 0; 0] == 0 /\ normalize [0; 0; 0; 0] = [0; 0; 0; 0]).
Proof.
  assert (Hl : List.length [3; 4; 0; 0] = dimension two_faces)
    by reflexivity.
  assert (Hd : index_d (index two_faces) = dimension two_faces)
    by reflexivity.
  assert (Hn : 0 < linalg_norm [3; 4; 0; 0]) by reflexivity.
  assert (Hz : linalg_norm [0; 0; 0; 0] == 0) by reflexivity.
  split; [exact Hl|]. split; [exact Hd|]. split; [exact Hn|].
  destruct (embeddings_are_normalized two_faces 7 [3; 4; 0; 0] true 1 None
              Hl Hd) as (A & _).
  destruct (embeddings_are_normalized two_faces 7 [0; 0; 0; 0] true 1 None
              eq_refl Hd) as (_ & B & _).
  split; [exact (A Hn)|]. split; [exact Hz|exact (B Hz)].
Defined.

(** * Further properties of the engine *)

Section SearchShape.

Context {K : Kernels}.

Lemma search_loop_length idm k ex cands :
  forall results,
    (Z.of_nat (List.length results) < k)%Z ->
    (Z.of_nat (List.length (search_loop idm k ex cands results)) <= k)%Z.
Proof.
  induction cands as [|[dist idx] rest IH]; intros results H; simpl.
  - lia.
  - destruct (Z.eqb idx (-1) || negb (mem idx idm)); [now apply IH|].
    destruct (get idx idm) as [fid|]; [|now apply IH].
    destruct (truthy ex && eq_opt fid ex); [now apply IH|].
    destruct (Z.leb_spec k
                (Z.of_nat (List.length
                   (results ++
                    [{| face_profile_id := fid;
                        similarity := similarity_of dist;
                        distance := dist;
                        confidence_level :=
                          confidence_of (similarity_of dist) |}])))) as [L|L].
    + rewrite length_app in *. simpl in *. lia.
    + now apply IH.
Qed.

Lemma search_loop_excludes idm k x cands :
  x <> 0%Z ->
  forall results r,
    In r (search_loop idm k (Some x) cands results) ->
    In r results \/ face_profile_id r <> x.
Proof.
  intros Hx. induction cands as [|[dist idx] rest IH]; intros results r; simpl.
  - now left.
  - destruct (Z.eqb idx (-1) || negb (mem idx idm)); [apply IH|].
    destruct (get idx idm) as [fid|]; [|apply IH].
    replace (negb (Z.eqb x 0)) with true
      by (symmetry; apply negb_true_iff; now apply Z.eqb_neq).
    simpl. destruct (Z.eqb_spec fid x) as [->|Hne]; [apply IH|].
    set (new := {| face_profile_id := fid; similarity := similarity_of dist;
                   distance := dist;
                   confidence_level := confidence_of (similarity_of dist) |}).
    assert (A : In r (results ++ [new]) ->
                In r results \/ face_profile_id r <> x).
    { intro I. apply in_app_or in I. destruct I as [I|I]; [auto|].
      simpl in I. destruct I as [<-|[]]. now right. }
    destruct (k <=? Z.of_nat (List.length (results ++ [new])))%Z; [exact A|].
    intro I. apply IH in I. destruct I; auto.
Qed.

Lemma search_similar_unfold e k ex s :
  search_similar e k ex s = (Returned [], s) \/
  ((0 < k)%Z /\ ntotal (index s) <> 0%Z /\
   List.length e = dimension s /\
   search_similar e k ex s
   = (Returned
        (search_loop (id_map s) k ex
           (flat_search (xb (index s)) (normalize e)
              (Z.to_nat (py_min (k * 2) (ntotal (index s))))) []), s)).
Proof.
  run. destruct (Z.eqb_spec (ntotal (index s)) 0) as [|Hn]; [now left|].
  destruct (Nat.eqb_spec (List.length e) (dimension s)) as [Hl|];
    simpl; [|now left].
  unfold index_search.
  destruct (negb (Nat.eqb (List.length (normalize e)) (index_d (index s))));
    simpl; [now left|].
  destruct (Z.leb_spec (py_min (k * 2) (ntotal (index s))) 0) as [L|L];
    simpl; [now left|].
  right. repeat split; auto.
  unfold py_min in L. destruct (Z.ltb_spec (ntotal (index s)) (k * 2)); lia.
Qed.

(** X1: search never returns more than k matches, and returns none when
    k is not positive. *)
Theorem search_similar_at_most_k (s : engine) (e : vec) (k : Z)
  (ex : option Z) :
  exists results,
    search_similar e k ex s = (Returned results, s) /\
    (Z.of_nat (List.length results) <= Z.max 0 k)%Z.
Proof.
  destruct (search_similar_unfold e k ex s) as [E|(Hk & _ & _ & E)];
    rewrite E; eexists; split; try reflexivity.
  - simpl. lia.
  - pose proof (search_loop_length (id_map s) k ex
                  (flat_search (xb (index s)) (normalize e)
                     (Z.to_nat (py_min (k * 2) (ntotal (index s))))) []).
    simpl in H. lia.
Qed.

(** X2: a non-zero exclusion id never appears among the matches of search,
    nor as the best match of check_duplicate. *)
Theorem excluded_id_is_never_returned (s : engine) (e : vec) (k x : Z) :
  x <> 0%Z ->
  (forall results r,
     fst (search_similar e k (Some x) s) = Returned results ->
     In r results -> face_profile_id r <> x) /\
  (forall b m,
     fst (check_duplicate e (Some x) s) = Returned (b, Some m) ->
     face_profile_id m <> x).
Proof.
  intro Hx.
  assert (A : forall k' results r,
             fst (search_similar e k' (Some x) s) = Returned results ->
             In r results -> face_profile_id r <> x).
  { intros k' results r E I.
    destruct (search_similar_unfold e k' (Some x) s) as [F|(_ & _ & _ & F)];
      rewrite F in E; simpl in E; inversion E; subst; [contradiction|].
    apply (search_loop_excludes _ _ _ _ Hx) in I. destruct I as [[]|I].
    exact I. }
  split; [apply A|].
  intros b m E. unfold check_duplicate, bind in E.
  destruct (search_similar_returns e 1 (Some x) s) as [rs F].
  rewrite F in E. destruct rs as [|m' rest]; simpl in E; inversion E; subst.
  apply (A 1%Z (m :: rest) m); [now rewrite F|now left].
Qed.

End SearchShape.

Lemma excluded_id_is_never_returned_witness :
  (2 <> 0)%Z /\
  fst (search_similar e1 2 (Some 2%Z) two_faces)
  = Returned [{| face_profile_id := 1; similarity := 4 # 4; distance := 0;
                 confidence_level := "high" |}] /\
  (forall results r,
     fst (search_similar e1 2 (Some 2%Z) two_faces) = Returned results ->
     In r results -> face_profile_id r <> 2%Z).
Proof.
  assert (H : (2 <> 0)%Z) by discriminate.
  split; [exact H|]. split; [vm_compute; reflexivity|].
  apply (excluded_id_is_never_returned two_faces e1 2 2 H).
Defined.

(** ** Matches come from the candidates, in their order *)

Section SearchOrder.

Context {K : Kernels}.

Lemma search_loop_from_cands idm k ex cands :
  forall results r,
    In r (search_loop idm k ex cands results) ->
    In r results \/
    exists idx, In (distance r, idx) cands /\
                get idx idm = Some (face_profile_id r).
Proof.
  induction cands as [|[dist idx] rest IH]; intros results r; simpl.
  - now left.
  - assert (Skip : In r (search_loop idm k ex rest results) ->
                   In r results \/
                   exists idx0,
                     ((dist, idx) = (distance r, idx0) \/
                      In (distance r, idx0) rest) /\
                     get idx0 idm = Some (face_profile_id r)).
    { intro I. apply IH in I. destruct I as [I|(i & I & G)]; [now left|].
      right. exists i. auto. }
    destruct (Z.eqb idx (-1) || negb (mem idx idm)); [exact Skip|].
    destruct (get idx idm) as [fid|] eqn:G; [|exact Skip].
    destruct (truthy ex && eq_opt fid ex); [exact Skip|].
    set (new := {| face_profile_id := fid; similarity := similarity_of dist;
                   distance := dist;
                   confidence_level := confidence_of (similarity_of dist) |}).
    assert (A : In r (results ++ [new]) ->
                In r results \/
                exists idx0,
                  ((dist, idx) = (distance r, idx0) \/
                   In (distance r, idx0) rest) /\
                  get idx0 idm = Some (face_profile_id r)).
    { intro I. apply in_app_or in I. destruct I as [I|I]; [auto|].
      simpl in I. destruct I as [<-|[]]. right. exists idx. simpl. auto. }
    destruct (k <=? Z.of_nat (List.length (results ++ [new])))%Z; [exact A|].
    intro I. apply IH in I. destruct I as [I|(i & I & G')]; [auto|].
    right. exists i. auto.
Qed.

Lemma get_Some_key {V} (k : Z) (v : V) (m : dict V) :
  get k m = Some v -> In k (map fst m).
Proof.
  induction m as [|[k' v'] m IH]; simpl; [discriminate|].
  destruct (Z.eqb_spec k k') as [->|_]; intro H; [now left|right; auto].
Qed.

Lemma sorted_drop {A} (R : A -> A -> Prop) (l1 : list A) x l2 :
  StronglySorted R (l1 ++ x :: l2) -> StronglySorted R (l1 ++ l2).
Proof.
  induction l1 as [|a l1 IH]; simpl; intro H.
  - now inversion H.
  - inversion H as [|? ? S F]; subst. constructor; [now apply IH|].
    rewrite Forall_app in *. destruct F as [F1 F2]. split; [exact F1|].
    now inversion F2.
Qed.

Lemma sorted_prefix {A} (R : A -> A -> Prop) (l1 l2 : list A) :
  StronglySorted R (l1 ++ l2) -> StronglySorted R l1.
Proof.
  induction l1 as [|a l1 IH]; simpl; intro H; [constructor|].
  inversion H as [|? ? S F]; subst. constructor; [now apply IH|].
  rewrite Forall_app in F. tauto.
Qed.

Lemma search_loop_sorted idm k ex cands :
  forall results,
    StronglySorted Qle (map distance results ++ map fst cands) ->
    StronglySorted Qle (map distance (search_loop idm k ex cands results)).
Proof.
  induction cands as [|[dist idx] rest IH]; intros results H; simpl in *.
  - now rewrite app_nil_r in H.
  - pose proof (sorted_drop _ _ _ _ H) as Hskip.
    destruct (Z.eqb idx (-1) || negb (mem idx idm)); [now apply IH|].
    destruct (get idx idm) as [fid|]; [|now apply IH].
    destruct (truthy ex && eq_opt fid ex); [now apply IH|].
    set (new := {| face_profile_id := fid; similarity := similarity_of dist;
                   distance := dist;
                   confidence_level := confidence_of (similarity_of dist) |}).
    assert (E : map distance (results ++ [new]) ++ map fst rest
                = map distance results ++ dist :: map fst rest)
      by (rewrite map_app, <- app_assoc; reflexivity).
    destruct (k <=? Z.of_nat (List.length (results ++ [new])))%Z.
    + apply (sorted_prefix Qle _ (map fst rest)). now rewrite E.
    + apply IH. now rewrite E.
Qed.

Lemma sorted_map {A B} (f : A -> B) (R : B -> B -> Prop) (l : list A) :
  StronglySorted R (map f l) ->
  StronglySorted (fun a b => R (f a) (f b)) l.
Proof.
  induction l as [|a l IH]; simpl; intro H; [constructor|].
  inversion H as [|? ? S F]; subst. constructor; [now apply IH|].
  rewrite Forall_map in F. exact F.
Qed.

Lemma sorted_weaken {A} (R R' : A -> A -> Prop) (Q : A -> Prop)
  (l : list A) :
  (forall a b, Q a -> Q b -> R a b -> R' a b) ->
  Forall Q l -> StronglySorted R l -> StronglySorted R' l.
Proof.
  intros W. induction l as [|a l IH]; intros F H; [constructor|].
  inversion F as [|? ? Qa Fl]; subst.
  inversion H as [|? ? S Fa]; subst.
  constructor; [now apply IH|].
  rewrite Forall_forall in *. intros b Hb. apply W; auto.
Qed.

Lemma similarity_of_antitone d1 d2 :
  d1 <= d2 -> similarity_of d2 <= similarity_of d1.
Proof.
  intro H. unfold similarity_of, py_max.
  assert (L : 1 - d2 / 4 <= 1 - d1 / 4).
  { unfold Qminus. apply Qplus_le_r. apply Qopp_le_compat.
    unfold Qdiv. apply Qmult_le_compat_r; [exact H|discriminate]. }
  destruct (Qltb 0 (1 - d2 / 4)) eqn:E2; destruct (Qltb 0 (1 - d1 / 4)) eqn:E1.
  - exact L.
  - apply Qltb_lt in E2. apply Qltb_ge in E1.
    exfalso. apply (Qlt_not_le _ _ E2). now apply Qle_trans with (1 - d1 / 4).
  - apply Qltb_lt in E1. now apply Qlt_le_weak.
  - apply Qle_refl.
Qed.

(** X3: every match names an enrolled profile: its id is bound, at a
    position inside the index that maps back to the id. *)
Theorem matches_are_enrolled (s : engine) (e : vec) (k : Z) (ex : option Z)
  (results : list SearchResult) (r : SearchResult) :
  wf s ->
  fst (search_similar e k ex s) = Returned results ->
  In r results ->
  mem (face_profile_id r) (reverse_map s) = true /\
  exists p, (0 <= p < ntotal (index s))%Z /\
            get (face_profile_id r) (reverse_map s) = Some p /\
            get p (id_map s) = Some (face_profile_id r).
Proof.
  intros W E I.
  destruct (search_similar_unfold e k ex s) as [F|(_ & _ & _ & F)];
    rewrite F in E; simpl in E; inversion E; subst; [contradiction|].
  apply search_loop_from_cands in I. destruct I as [[]|(p & _ & G)].
  destruct W as (_ & _ & Hnd & Hlen & Hi & Hr).
  assert (Hp : In p (positions (List.length (ext_ids s)))).
  { rewrite <- enum_keys, <- Hi. now apply get_Some_key in G. }
  assert (Hg : get (face_profile_id r) (reverse_map s) = Some p).
  { rewrite Hr. rewrite Hi in G. unfold renum. unfold enum in G.
    apply get_zip_inverse; auto. apply positions_length. }
  split.
  - unfold mem. now rewrite Hg.
  - exists p. apply positions_bound in Hp. unfold ntotal.
    rewrite <- Hlen. auto.
Qed.

(** X4: when the index scan lists its candidates nearest first, the matches
    come out by ascending distance and descending similarity. *)
Theorem matches_are_ordered (s : engine) (e : vec) (k : Z) (ex : option Z)
  (results : list SearchResult) :
  (forall n, StronglySorted Qle
               (map fst (flat_search (xb (index s)) (normalize e) n))) ->
  fst (search_similar e k ex s) = Returned results ->
  StronglySorted (fun a b => distance a <= distance b) results /\
  StronglySorted (fun a b => similarity b <= similarity a) results.
Proof.
  intros Hs E.
  assert (D : StronglySorted (fun a b => distance a <= distance b) results).
  { destruct (search_similar_unfold e k ex s) as [F|(_ & _ & _ & F)];
      rewrite F in E; simpl in E; inversion E; subst; [constructor|].
    apply sorted_map. apply search_loop_sorted. simpl. apply Hs. }
  split; [exact D|].
  apply (sorted_weaken (fun a b => distance a <= distance b)
           (fun a b => similarity b <= similarity a)
           (scored (id_map s))); [| |exact D].
  - intros a b (Sa & _) (Sb & _) L. rewrite Sa, Sb.
    now apply similarity_of_antitone.
  - apply Forall_forall. intros r I.
    destruct (search_similar_returns e k ex s) as [rs F].
    rewrite F in E. simpl in E. inversion E; subst rs.
    apply (search_similar_scored e k ex s results r F I).
Qed.

End SearchOrder.

Lemma matches_are_enrolled_witness :
  let r := {| face_profile_id := 2; similarity := 2 # 4; distance := 2;
              confidence_level := "low" |} in
  wf two_faces /\
  (exists results,
     fst (search_similar e1 2 None two_faces) = Returned results /\
     In r results) /\
  mem 2 (reverse_map two_faces) = true.
Proof.
  intro r.
  set (results := [{| face_profile_id := 1; similarity := 4 # 4;
                      distance := 0; confidence_level := "high" |}; r]).
  assert (E : fst (search_similar e1 2 None two_faces) = Returned results)
    by (vm_compute; reflexivity).
  assert (I : In r results) by (right; left; reflexivity).
  split; [exact wf_two_faces|]. split; [exists results; auto|].
  apply (matches_are_enrolled two_faces e1 2 None results r wf_two_faces E I).
Defined.

Lemma sorted_firstn {A} (R : A -> A -> Prop) (n : nat) (l : list A) :
  StronglySorted R l -> StronglySorted R (firstn n l).
Proof.
  intro H. apply (sorted_prefix R (firstn n l) (skipn n l)).
  now rewrite firstn_skipn.
Qed.

Lemma matches_are_ordered_witness :
  (forall n, StronglySorted Qle
               (map fst (flat_search (xb (index two_faces))
                           (normalize e1) n))) /\
  (exists results,
     fst (search_similar e1 2 None two_faces) = Returned results /\
     StronglySorted (fun a b => similarity b <= similarity a) results).
Proof.
  assert (H : forall n, StronglySorted Qle
                          (map fst (flat_search (xb (index two_faces))
                                      (normalize e1) n))).
  { intro n. unfold flat_search, exact_kernels, Exact.search.
    rewrite <- firstn_map. apply sorted_firstn.
    vm_compute. repeat constructor; discriminate. }
  split; [exact H|].
  destruct (search_similar_returns e1 2 None two_faces) as [results E].
  exists results.
  assert (F : fst (search_similar e1 2 None two_faces) = Returned results)
    by now rewrite E.
  split; [exact F|].
  apply (matches_are_ordered two_faces e1 2 None results H F).
Defined.

(** ** Insertion and lookup *)

Section InsertLookup.

Context {K : Kernels}.

Lemma get_set_same {V} (k : Z) (v : V) (m : dict V) :
  get k (set k v m) = Some v.
Proof.
  induction m as [|[k' v'] m IH]; simpl.
  - now rewrite Z.eqb_refl.
  - destruct (Z.eqb k k') eqn:E; simpl; rewrite E; auto.
Qed.

Lemma get_set_other {V} (k k' : Z) (v : V) (m : dict V) :
  k' <> k -> get k' (set k v m) = get k' m.
Proof.
  intro H. induction m as [|[k0 v0] m IH]; simpl.
  - apply Z.eqb_neq in H. now rewrite H.
  - destruct (Z.eqb_spec k k0) as [->|N]; simpl.
    + apply Z.eqb_neq in H. now rewrite H.
    + now rewrite IH.
Qed.

(** X5: a successful insert binds the id to the next position, both ways,
    stores the normalized embedding there, grows the index by one and keeps
    every earlier binding. *)
Theorem add_vector_then_lookup (s : engine) (fid : Z) (e : vec)
  (persist : bool) :
  wf s ->
  mem fid (reverse_map s) = false ->
  List.length e = dimension s ->
  let n := ntotal (index s) in
  let s' := snd (add_vector fid e persist s) in
  get fid (reverse_map s') = Some n /\
  get n (id_map s') = Some fid /\
  index_reconstruct (index s') n = inr (normalize e) /\
  ntotal (index s') = (n + 1)%Z /\
  (forall x p, get x (reverse_map s) = Some p ->
               get x (reverse_map s') = Some p /\
               get p (id_map s') = Some x /\
               index_reconstruct (index s') p = index_reconstruct (index s) p).
Proof.
  intros W Hm Hl n s'.
  assert (Hd : index_d (index s) = dimension s) by apply W.
  unfold s'. rewrite (add_vector_fresh s fid e persist Hm Hl Hd). simpl.
  destruct (persisted_fields persist (inserted fid e s)) as (_ & Ei & Em & Er).
  rewrite Ei, Em, Er. simpl. fold n.
  split; [apply get_set_same|]. split; [apply get_set_same|].
  split.
  { unfold n. apply index_reconstruct_middle with (rows := []). reflexivity. }
  split.
  { unfold ntotal, n. simpl. rewrite length_app. simpl. unfold ntotal. lia. }
  intros x p G.
  assert (Hx : x <> fid).
  { intros ->. apply mem_get_none in Hm. congruence. }
  pose proof (wf_bijective s W) as [_ B]. pose proof (B x p G) as G'.
  assert (Hp : (0 <= p < n)%Z).
  { destruct W as (_ & _ & _ & Hlen & Hi & _). rewrite Hi in G'.
    apply get_Some_key in G'. rewrite enum_keys in G'.
    apply positions_bound in G'. unfold n, ntotal. lia. }
  split; [now rewrite get_set_other|].
  split; [rewrite get_set_other; [exact G'|lia]|].
  unfold index_reconstruct, ntotal. simpl. rewrite length_app. simpl.
  unfold n, ntotal in Hp.
  replace ((p <? Z.of_nat (List.length (xb (index s)) + 1))%Z) with true
    by (symmetry; apply Z.ltb_lt; lia).
  replace ((p <? Z.of_nat (List.length (xb (index s))))%Z) with true
    by (symmetry; apply Z.ltb_lt; lia).
  rewrite nth_error_app1 by lia. reflexivity.
Qed.

(** X6: insert never raises; it succeeds exactly when the id is unbound and
    the embedding has the engine's dimension, and a refused insert leaves the
    engine untouched. *)
Theorem add_vector_succeeds_iff (s : engine) (fid : Z) (e : vec)
  (persist : bool) :
  index_d (index s) = dimension s ->
  (fst (add_vector fid e persist s) = Returned true <->
   mem fid (reverse_map s) = false /\ List.length e = dimension s) /\
  (fst (add_vector fid e persist s) = Returned true \/
   add_vector fid e persist s = (Returned false, s)).
Proof.
  intro Hd.
  destruct (add_vector_cases s fid e persist Hd) as [E|(Hm & Hl & E)].
  - split; [|now right]. rewrite E. simpl. split; [discriminate|].
    intros [Hm Hl]. rewrite (add_vector_fresh s fid e persist Hm Hl Hd) in E.
    discriminate E.
  - rewrite E. simpl. split; [tauto|now left].
Qed.

End InsertLookup.

Lemma add_vector_then_lookup_witness :
  wf two_faces /\ mem 7 (reverse_map two_faces) = false /\
  List.length [3; 4; 0; 0] = dimension two_faces /\
  get 7 (reverse_map (snd (add_vector 7 [3; 4; 0; 0] true two_faces)))
  = Some 2%Z /\
  get 2 (id_map (snd (add_vector 7 [3; 4; 0; 0] true two_faces)))
  = Some 7%Z.
Proof.
  assert (Hm : mem 7 (reverse_map two_faces) = false) by reflexivity.
  assert (Hl : List.length [3; 4; 0; 0] = dimension two_faces)
    by reflexivity.
  split; [exact wf_two_faces|]. split; [exact Hm|]. split; [exact Hl|].
  destruct (add_vector_then_lookup two_faces 7 [3; 4; 0; 0] true
              wf_two_faces Hm Hl) as (A & B & _).
  split; [exact A|exact B].
Defined.

Lemma add_vector_succeeds_iff_witness :
  index_d (index two_faces) = dimension two_faces /\
  (fst (add_vector 7 [3; 4; 0; 0] true two_faces) = Returned true <->
   mem 7 (reverse_map two_faces) = false /\
   List.length [3; 4; 0; 0] = dimension two_faces).
Proof.
  assert (Hd : index_d (index two_faces) = dimension two_faces)
    by reflexivity.
  split; [exact Hd|].
  apply (add_vector_succeeds_iff two_faces 7 [3; 4; 0; 0] true Hd).
Defined.

(** ** Persistence *)

Section Persistence.

Context {K : Kernels}.




(** ** Removal on an index of another dimension *)


End Persistence.




(** ** Sequences of calls *)

Section Sequences.

Context {K : Kernels}.

Lemma wf_save_to_redis s : wf s -> wf (snd (save_to_redis s)).
Proof.
  intro W. run. destruct (redis_client s); exact W.
Qed.

Lemma wf_perform c s : wf s -> wf (perform c s).
Proof.
  intro W. destruct c; simpl.
  - now apply wf_add_vector.
  - destruct (search_similar_returns embedding k exclude_id s) as [rs E].
    now rewrite E.
  - now rewrite check_duplicate_read_only.
  - now apply wf_remove_vector.
  - apply wf_rebuild_from_database.
  - now apply wf_save_to_redis.
  - exact W.
Qed.

Lemma wf_FaceVectorIndex_sound dim store :
  sound_store dim store -> wf (FaceVectorIndex dim store).
Proof.
  destruct store as [r|]; simpl.
  - intros [N|(s0 & n & W & <- & ->)].
    + apply wf_FaceVectorIndex_fresh. intros r' E. now inversion E; subst.
    + now apply wf_FaceVectorIndex_snapshot.
  - intros _. apply wf_FaceVectorIndex_fresh. discriminate.
Qed.

(** X10: an engine constructed without a store, over a store with no
    structure key, or over a complete snapshot stays consistent under any
    sequence of public calls: the identity map is a bijection onto the
    stored vectors, and get_stats reports as total_vectors the number of
    bound ids. *)
Theorem calls_keep_the_index_consistent (dim : nat) (store : option redis)
  (cs : list call) :
  sound_store dim store ->
  let s := perform_all cs (FaceVectorIndex dim store) in
  wf s /\ bijective s /\
  obj_get "total_vectors" (get_stats s) = Some (JInt (len (reverse_map s))) /\
  obj_get "dimension" (get_stats s) = Some (JInt (Z.of_nat dim)).
Proof.
  intros S s.
  assert (G : forall cs0 s0, wf s0 -> wf (perform_all cs0 s0) /\
                dimension (perform_all cs0 s0) = dimension s0).
  { induction cs0 as [|c cs0 IH]; intros s0 W; simpl; [auto|].
    destruct (IH (perform c s0) (wf_perform c s0 W)) as [A B].
    split; [exact A|]. rewrite B. clear - W.
    destruct c; simpl; try reflexivity.
    - destruct (add_vector_cases s0 fid embedding persist (proj1 W))
        as [E|(_ & _ & E)]; rewrite E; simpl; [reflexivity|].
      now destruct (persisted_fields persist (inserted fid embedding s0)).
    - destruct (search_similar_returns embedding k exclude_id s0) as [rs E].
      now rewrite E.
    - now rewrite check_duplicate_read_only.
    - destruct (mem fid (reverse_map s0)) eqn:Hm.
      + rewrite (remove_vector_bound s0 fid persist W Hm). simpl.
        now destruct (persisted_fields persist (removed fid s0)).
      + now rewrite (remove_vector_unbound s0 fid persist Hm).
    - rewrite rebuild_from_database_loaded. simpl.
      now destruct (persisted_fields true
                      (loaded (dimension s0)
                         (accepted (dimension s0) [] face_profiles)
                         (redis_client s0))).
    - run. now destruct (redis_client s0). }
  destruct (G cs (FaceVectorIndex dim store)
              (wf_FaceVectorIndex_sound dim store S)) as [W D].
  fold s in W, D.
  pose proof (wf_bijective s W) as B.
  split; [exact W|]. split; [exact B|]. simpl.
  destruct B as [B _]. rewrite B. split; [reflexivity|].
  rewrite D. unfold FaceVectorIndex. run.
  destruct store as [r|]; simpl; [|reflexivity].
  destruct (kv_index r); simpl; [|reflexivity].
  destruct (kv_map r); reflexivity.
Qed.

End Sequences.

Lemma calls_keep_the_index_consistent_witness :
  let cs := [CallAdd 1 e1 true; CallAdd 1 e2 true; CallRemove 5 true;
             CallAdd 2 e2 false; CallSearch e1 3 None; CallRemove 1 true;
             CallStats] in
  sound_store 4 (Some (snapshot_of fresh4 0)) /\
  wf (perform_all cs (FaceVectorIndex 4 (Some (snapshot_of fresh4 0)))) /\
  obj_get "total_vectors"
    (get_stats (perform_all cs
                  (FaceVectorIndex 4 (Some (snapshot_of fresh4 0)))))
  = Some (JInt 1).
Proof.
  intro cs.
  assert (S : sound_store 4 (Some (snapshot_of fresh4 0))).
  { right. exists fresh4, 0%nat. split; [|split; reflexivity].
    apply wf_FaceVectorIndex_fresh. discriminate. }
  split; [exact S|].
  destruct (calls_keep_the_index_consistent 4
              (Some (snapshot_of fresh4 0)) cs S) as (A & _ & B & _).
  split; [exact A|exact B].
Defined.

(** ** Duplicate detection in terms of distance *)

Section Duplicates.

Context {K : Kernels}.



End Duplicates.


(** ** Insert, remove and rebuild composed *)

Section Composition.

Context {K : Kernels}.

Lemma filter_keeps_all fid :
  forall (rows : list vec) (ids : list Z),
    ~ In fid ids ->
    filter (keeps fid) (combine rows ids) = combine rows ids.
Proof.
  induction rows as [|row rows IH]; intros [|x ids] H; try reflexivity.
  simpl. change (keeps fid (row, x)) with (negb (Z.eqb x fid)).
  destruct (Z.eqb_spec x fid) as [->|_]; simpl.
  - exfalso. apply H. now left.
  - f_equal. apply IH. intro I. apply H. now right.
Qed.

Lemma survivors_persisted fid persist t :
  survivors fid (persisted persist t) = survivors fid t.
Proof.
  destruct (persisted_fields persist t) as (_ & Ei & Em & _).
  unfold survivors, ext_ids. now rewrite Ei, Em.
Qed.

Lemma survivors_inserted s fid e :
  wf s -> mem fid (reverse_map s) = false -> List.length e = dimension s ->
  survivors fid (inserted fid e s) = combine (xb (index s)) (ext_ids s).
Proof.
  intros W Hm Hl.
  destruct (wf_inserted s fid e W Hm Hl) as [_ Hx].
  pose proof (wf_unbound s fid W Hm) as Hn.
  destruct W as (_ & _ & _ & Hlen & _ & _).
  unfold survivors. rewrite Hx. simpl.
  rewrite zip_app by (symmetry; exact Hlen).
  rewrite filter_app, filter_keeps_all by exact Hn. simpl.
  change (keeps fid (normalize e, fid)) with (negb (Z.eqb fid fid)).
  rewrite Z.eqb_refl. simpl. apply app_nil_r.
Qed.

(** X12: on a well-formed engine, inserting a new id and then removing it
    gives back the same search structure and the same identity map. *)
Theorem insert_then_remove_restores (s : engine) (fid : Z) (e : vec)
  (persist persist' : bool) :
  wf s ->
  mem fid (reverse_map s) = false ->
  List.length e = dimension s ->
  let s1 := snd (add_vector fid e persist s) in
  let s2 := snd (remove_vector fid persist' s1) in
  fst (add_vector fid e persist s) = Returned true /\
  fst (remove_vector fid persist' s1) = Returned true /\
  same_content s2 s.
Proof.
  intros W Hm Hl s1 s2.
  assert (E1 : add_vector fid e persist s
               = (Returned true, persisted persist (inserted fid e s)))
    by (apply add_vector_fresh; auto; apply W).
  assert (W1 : wf s1).
  { unfold s1. rewrite E1. simpl. apply wf_persisted.
    now apply wf_inserted. }
  assert (Hb : mem fid (reverse_map s1) = true).
  { unfold s1. rewrite E1. simpl.
    destruct (persisted_fields persist (inserted fid e s)) as (_ & _ & _ & Er).
    rewrite Er. simpl. unfold mem. now rewrite get_set_same. }
  assert (E2 : remove_vector fid persist' s1
               = (Returned true, persisted persist' (removed fid s1)))
    by now apply remove_vector_bound.
  split; [now rewrite E1|]. split; [now rewrite E2|].
  unfold s2. rewrite E2. simpl.
  destruct (persisted_fields persist' (removed fid s1)) as (_ & Ei & Em & Er).
  unfold same_content. rewrite Ei, Em, Er. simpl.
  assert (Hs : survivors fid s1 = combine (xb (index s)) (ext_ids s)).
  { unfold s1. rewrite E1. simpl. rewrite survivors_persisted.
    now apply survivors_inserted. }
  assert (Hdim : dimension s1 = dimension s).
  { unfold s1. rewrite E1. simpl.
    now destruct (persisted_fields persist (inserted fid e s)). }
  rewrite Hs, Hdim.
  destruct W as (Hd & _ & _ & Hlen & Hi & Hr).
  rewrite zip_fst, zip_snd by (symmetry; exact Hlen).
  rewrite <- Hi, <- Hr, <- Hd. now destruct (index s).
Qed.

Lemma first_occurrences_distinct :
  forall (recs : list (Z * vec)) seen,
    NoDup (seen ++ map fst recs) ->
    first_occurrences seen recs = recs.
Proof.
  induction recs as [|[fid e] recs IH]; intros seen H; [reflexivity|].
  simpl in *.
  assert (N : existsb (Z.eqb fid) seen = false).
  { destruct (existsb (Z.eqb fid) seen) eqn:E; [|reflexivity].
    apply existsb_eqb_In in E. apply NoDup_remove_2 in H.
    exfalso. apply H. apply in_or_app. now left. }
  rewrite N. f_equal. apply IH. rewrite <- app_assoc. exact H.
Qed.

Lemma get_zip_nth :
  forall (ids : list Z) (a i : nat) (x : Z),
    NoDup ids ->
    nth_error ids i = Some x ->
    get x (combine ids (map Z.of_nat (seq a (List.length ids))))
    = Some (Z.of_nat (a + i)).
Proof.
  induction ids as [|y ids IH]; intros a i x Hn Hi.
  - destruct i; discriminate.
  - inversion Hn as [|? ? Hy Hn']; subst. destruct i as [|i]; simpl in *.
    + inversion Hi; subst. rewrite Z.eqb_refl. f_equal. lia.
    + destruct (Z.eqb_spec x y) as [->|_].
      * exfalso. apply Hy. eapply nth_error_In. exact Hi.
      * rewrite (IH (S a) i x Hn' Hi). f_equal. lia.
Qed.

(** X13: when the records carry distinct ids and embeddings of the engine's
    dimension, rebuild enrolls every one of them, whatever the engine held
    before: record number i is bound to position i and its normalized
    embedding is stored there. *)
Theorem rebuild_enrolls_distinct_records (s : engine)
  (recs : list (Z * vec)) :
  NoDup (map fst recs) ->
  Forall (fun p => List.length (snd p) = dimension s) recs ->
  let s' := snd (rebuild_from_database recs s) in
  ext_ids s' = map fst recs /\
  ntotal (index s') = Z.of_nat (List.length recs) /\
  (forall i fid e,
     nth_error recs i = Some (fid, e) ->
     get fid (reverse_map s') = Some (Z.of_nat i) /\
     get (Z.of_nat i) (id_map s') = Some fid /\
     index_reconstruct (index s') (Z.of_nat i) = inr (normalize e)).
Proof.
  intros Hn Hf s'. unfold s'. rewrite rebuild_from_database_loaded. simpl.
  rewrite accepted_first_occurrences by exact Hf.
  rewrite first_occurrences_distinct by exact Hn.
  destruct (persisted_fields true
              (loaded (dimension s) recs (redis_client s)))
    as (_ & Ei & Em & Er).
  unfold ext_ids. rewrite Ei, Em, Er. simpl.
  split; [apply enum_values|]. split.
  { unfold ntotal. simpl. now rewrite length_map. }
  intros i fid e Hi.
  assert (Hid : nth_error (map fst recs) i = Some fid)
    by (rewrite nth_error_map, Hi; reflexivity).
  assert (Hr : get fid (renum (map fst recs)) = Some (Z.of_nat i))
    by (unfold renum, positions; now rewrite (get_zip_nth _ 0 i fid Hn Hid)).
  split; [exact Hr|]. split.
  - unfold renum in Hr. unfold enum. apply get_zip_inverse; auto.
    + symmetry. apply positions_length.
    + apply positions_NoDup.
  - assert (Hlt : (i < List.length recs)%nat)
      by (apply nth_error_Some; congruence).
    unfold index_reconstruct, ntotal. simpl. rewrite length_map.
    replace ((0 <=? Z.of_nat i)%Z) with true by (symmetry; apply Z.leb_le; lia).
    replace ((Z.of_nat i <? Z.of_nat (List.length recs))%Z) with true
      by (symmetry; apply Z.ltb_lt; lia).
    simpl. rewrite Nat2Z.id, nth_error_map, Hi. reflexivity.
Qed.

End Composition.

Lemma insert_then_remove_restores_witness :
  wf two_faces /\ mem 7 (reverse_map two_faces) = false /\
  List.length [3; 4; 0; 0] = dimension two_faces /\
  same_content
    (snd (remove_vector 7 true
            (snd (add_vector 7 [3; 4; 0; 0] true two_faces))))
    two_faces.
Proof.
  assert (Hm : mem 7 (reverse_map two_faces) = false) by reflexivity.
  assert (Hl : List.length [3; 4; 0; 0] = dimension two_faces)
    by reflexivity.
  split; [exact wf_two_faces|]. split; [exact Hm|]. split; [exact Hl|].
  apply (insert_then_remove_restores two_faces 7 [3; 4; 0; 0] true true
           wf_two_faces Hm Hl).
Defined.

Lemma rebuild_enrolls_distinct_records_witness :
  let recs := [(5%Z, e2); (3%Z, [3; 4; 0; 0])] in
  NoDup (map fst recs) /\
  Forall (fun p => List.length (snd p) = dimension two_faces) recs /\
  ext_ids (snd (rebuild_from_database recs two_faces)) = [5%Z; 3%Z] /\
  get 3 (reverse_map (snd (rebuild_from_database recs two_faces)))
  = Some 1%Z.
Proof.
  intro recs.
  assert (Hn : NoDup (map fst recs)).
  { repeat constructor; simpl; intuition discriminate. }
  assert (Hf : Forall (fun p => List.length (snd p) = dimension two_faces)
                 recs) by (repeat constructor).
  split; [exact Hn|]. split; [exact Hf|].
  destruct (rebuild_enrolls_distinct_records two_faces recs Hn Hf)
    as (A & _ & B).
  split; [exact A|].
  destruct (B 1%nat 3%Z [3; 4; 0; 0] eq_refl) as [C _]. exact C.
Defined.

(** * The JSON-RPC server *)

Section ServerProofs.

Context {K : Kernels} {R : Runtime}.

Lemma try_except_returns {A} (body : M A) (a0 : A) (s : engine) :
  exists a s', try_except body (fun _ => ret a0) s = (Returned a, s').
Proof.
  unfold try_except, ret. destruct (body s) as [[a|e] s']; eauto.
Qed.

Ltac engine_call E :=
  match goal with
  | |- context [call_engine (add_vector ?f ?e ?p) ?s] =>
      unfold call_engine;
      destruct (try_except_returns (add_vector_body f e p) false s)
        as (?b & ?s1 & E);
      change (try_except (add_vector_body f e p) (fun _ => ret false) s)
        with (add_vector f e p s) in E; rewrite E
  | |- context [call_engine (remove_vector ?f ?p) ?s] =>
      unfold call_engine;
      destruct (try_except_returns (remove_vector_body f p) false s)
        as (?b & ?s1 & E);
      change (try_except (remove_vector_body f p) (fun _ => ret false) s)
        with (remove_vector f p s) in E; rewrite E
  | |- context [call_engine (rebuild_from_database ?l) ?s] =>
      unfold call_engine;
      destruct (try_except_returns (rebuild_from_database_body l) false s)
        as (?b & ?s1 & E);
      change (try_except (rebuild_from_database_body l)
                (fun _ => ret false) s)
        with (rebuild_from_database l s) in E; rewrite E
  | |- context [call_engine (search_similar ?e ?k ?x) ?s] =>
      unfold call_engine;
      destruct (search_similar_returns e k x s) as (?rs & E); rewrite E
  end.

Lemma check_duplicate_returns e ex s :
  exists r, check_duplicate e ex s = (Returned r, s).
Proof.
  unfold check_duplicate, bind.
  destruct (search_similar_returns e 1 ex s) as [rs E]. rewrite E.
  destruct rs; unfold ret; eauto.
Qed.

Ltac open_reply r :=
  destruct r as [?v|?e|]; simpl;
  [|intros ? ? H; inversion H; subst; reflexivity
   |intros ? ? H; discriminate H].

Lemma rpc_add_vector_thrown params s :
  forall e s', rpc_add_vector params s = (Thrown e, s') -> s' = s.
Proof.
  unfold rpc_add_vector, rbind, rlift, rret.
  open_reply (subscript params "face_profile_id").
  open_reply (subscript params "embedding").
  open_reply (np_array v0).
  open_reply (as_int v).
  engine_call E. intros ? ? H. discriminate H.
Qed.

Lemma rpc_remove_vector_thrown params s :
  forall e s', rpc_remove_vector params s = (Thrown e, s') -> s' = s.
Proof.
  unfold rpc_remove_vector, rbind, rlift, rret.
  open_reply (subscript params "face_profile_id").
  open_reply (as_int v).
  engine_call E. intros ? ? H. discriminate H.
Qed.

Lemma rpc_search_similar_thrown params s :
  forall e s', rpc_search_similar params s = (Thrown e, s') -> s' = s.
Proof.
  unfold rpc_search_similar, rbind, rlift, rret.
  open_reply (subscript params "embedding").
  open_reply (np_array v).
  open_reply (dict_get params "k" (JInt 10)).
  open_reply (dict_get params "exclude_id" JNull).
  open_reply (as_int v1).
  open_reply (as_optional_int v2).
  engine_call E. intros ? ? H. discriminate H.
Qed.

Lemma rpc_check_duplicate_thrown params s :
  forall e s', rpc_check_duplicate params s = (Thrown e, s') -> s' = s.
Proof.
  unfold rpc_check_duplicate, rbind, rlift, rret.
  open_reply (subscript params "embedding").
  open_reply (np_array v).
  open_reply (dict_get params "exclude_id" JNull).
  open_reply (as_optional_int v1).
  unfold call_engine.
  destruct (check_duplicate_returns v0 v2 s) as [r E]. rewrite E.
  intros ? ? H. discriminate H.
Qed.

Lemma rpc_rebuild_thrown params s :
  forall e s', rpc_rebuild_from_database params s = (Thrown e, s') -> s' = s.
Proof.
  unfold rpc_rebuild_from_database, rbind, rlift, rret.
  open_reply (subscript params "face_profiles").
  open_reply (as_list v).
  open_reply (read_profiles v0).
  open_reply (typed_profiles v1).
  engine_call E. intros ? ? H. discriminate H.
Qed.

Lemma find_method_cases name h :
  find_method name methods = Some h ->
  h = rpc_add_vector \/ h = rpc_search_similar \/ h = rpc_check_duplicate \/
  h = rpc_remove_vector \/ h = rpc_get_stats \/
  h = rpc_rebuild_from_database.
Proof.
  unfold methods. simpl.
  repeat match goal with
         | |- context [String.eqb name ?n] => destruct (String.eqb name n)
         end;
    intro H; inversion H; subst; tauto.
Qed.

Lemma handler_thrown name h params s e s' :
  find_method name methods = Some h ->
  h params s = (Thrown e, s') -> s' = s.
Proof.
  intros F H. apply find_method_cases in F.
  destruct F as [->|[->|[->|[->|[->| ->]]]]].
  - eapply rpc_add_vector_thrown; eauto.
  - eapply rpc_search_similar_thrown; eauto.
  - eapply rpc_check_duplicate_thrown; eauto.
  - eapply rpc_remove_vector_thrown; eauto.
  - discriminate H.
  - eapply rpc_rebuild_thrown; eauto.
Qed.

Lemma find_method_table name table :
  find_method name table = None <-> ~ In name (map fst table).
Proof.
  induction table as [|[n h] table IH]; simpl; [tauto|].
  destruct (String.eqb_spec name n) as [->|N].
  - split; [discriminate|]. intro H. exfalso. apply H. now left.
  - rewrite IH. split; intro H; [intros [E|I]; [congruence|auto]|].
    intro I. apply H. now right.
Qed.

Lemma find_method_none name :
  find_method name methods = None <->
  ~ In name ["add_vector"; "search_similar"; "check_duplicate";
             "remove_vector"; "get_stats"; "rebuild_from_database"]%string.
Proof. apply (find_method_table name methods). Qed.

(** X14: a request is answered with error -32601 exactly when its method is
    not one of the six method names; the message then names the method and
    the engine is not touched. *)
Theorem method_not_found_iff (fields : list (string * json)) (s s' : engine)
  (response : json) :
  let request_id := obj_get_default "id" JNull fields in
  let method := obj_get_default "method" JNull fields in
  handle_request (JObj fields) s = (Done response, s') ->
  ((exists message, response = error_response request_id (-32601) message)
   <->
   (forall name, method = JStr name ->
      ~ In name ["add_vector"; "search_similar"; "check_duplicate";
                 "remove_vector"; "get_stats";
                 "rebuild_from_database"]%string)) /\
  ((exists message, response = error_response request_id (-32601) message)
   ->
   response = error_response request_id (-32601)
                ("Method not found: " ++ format_value method) /\
   s' = s).
Proof.
  intros request_id method. unfold handle_request.
  fold request_id. fold method.
  assert (NF : forall s0,
             rret (error_response request_id (-32601)
                     ("Method not found: " ++ format_value method)) s0
             = (Done response, s') ->
             (forall name, method = JStr name ->
                find_method name methods = None) ->
             ((exists message,
                 response = error_response request_id (-32601) message)
              <->
              (forall name, method = JStr name ->
                 ~ In name ["add_vector"; "search_similar"; "check_duplicate";
                            "remove_vector"; "get_stats";
                            "rebuild_from_database"]%string)) /\
             ((exists message,
                 response = error_response request_id (-32601) message)
              ->
              response = error_response request_id (-32601)
                           ("Method not found: " ++ format_value method) /\
              s' = s0)).
  { intros s0 H N. unfold rret in H. inversion H; subst. split.
    - split; [|eauto]. intros _ name E. apply find_method_none. auto.
    - auto. }
  destruct method as [| b | z | q | name | l | l] eqn:Em;
    try (intro H; apply (NF s H); intros name E; discriminate E);
    try (unfold rlift; intro H; discriminate H).
  destruct (find_method name methods) as [h|] eqn:F.
  - assert (I : ~ (forall name0, JStr name = JStr name0 ->
                     ~ In name0
                         ["add_vector"; "search_similar"; "check_duplicate";
                          "remove_vector"; "get_stats";
                          "rebuild_from_database"]%string)).
    { intro N. specialize (N name eq_refl). apply find_method_none in N.
      congruence. }
    destruct (h (obj_get_default "params" (JObj []) fields) s)
      as [[result|e|] s1]; intro H; inversion H; subst.
    + split; [split; [intros [m E]; discriminate E|tauto]|].
      intros [m E]. discriminate E.
    + split; [split; [intros [m E]; discriminate E|tauto]|].
      intros [m E]. discriminate E.
  - intro H. apply (NF s H). intros name0 E. now inversion E; subst.
Qed.

(** X15: every response carries the id of its request (null when the
    request has none) and is either a result or an error with code -32601 or
    -32603; a request answered with an error has not changed the engine. *)
Theorem responses_echo_the_request_id (request : json) (s s' : engine)
  (response : json) :
  handle_request request s = (Done response, s') ->
  exists fields,
    request = JObj fields /\
    let request_id := obj_get_default "id" JNull fields in
    ((exists result, response = result_response request_id result) \/
     (exists code message,
        response = error_response request_id code message /\
        (code = -32601 \/ code = -32603)%Z /\ s' = s)).
Proof.
  destruct request as [| b | z | q | str | l | fields];
    try (unfold handle_request, rlift; intro H; discriminate H).
  intro H. exists fields. split; [reflexivity|]. simpl.
  unfold handle_request in H.
  assert (NF : forall msg,
             rret (error_response (obj_get_default "id" JNull fields)
                     (-32601) msg) s = (Done response, s') ->
             (exists result,
                response
                = result_response (obj_get_default "id" JNull fields) result)
             \/
             (exists code message,
                response
                = error_response (obj_get_default "id" JNull fields)
                    code message /\
                (code = -32601 \/ code = -32603)%Z /\ s' = s)).
  { intros msg E. unfold rret in E. inversion E; subst. right.
    exists (-32601)%Z, msg. auto. }
  destruct (obj_get_default "method" JNull fields)
    as [| b | z | q | name | l | l];
    try (apply (NF _ H)); try (unfold rlift in H; discriminate H).
  destruct (find_method name methods) as [h|] eqn:F; [|apply (NF _ H)].
  destruct (h (obj_get_default "params" (JObj []) fields) s)
    as [[result|e|] s1] eqn:E; inversion H; subst.
  - left. eauto.
  - right. exists (-32603)%Z, (exn_str e). split; [reflexivity|].
    split; [now right|]. eapply handler_thrown; eauto.
Qed.

Lemma obj_get_default_some key default fields value :
  obj_get key fields = Some value ->
  obj_get_default key default fields = value.
Proof. unfold obj_get_default. now intros ->. Qed.

(** X16: a request for a method whose first required parameter is missing
    from the parameter object is answered with error -32603 carrying the
    text of the KeyError, and the engine is not touched; the same holds for
    add_vector without an embedding. *)
Theorem missing_parameter_is_internal_error (fields params : list (string * json))
  (name key : string) (s : engine) :
  obj_get "method" fields = Some (JStr name) ->
  obj_get_default "params" (JObj []) fields = JObj params ->
  (In (name, key) first_required \/
   (name = "add_vector"%string /\ key = "embedding"%string /\
    obj_get "face_profile_id" params <> None)) ->
  obj_get key params = None ->
  handle_request (JObj fields) s
  = (Done (error_response (obj_get_default "id" JNull fields) (-32603)
             (exn_str (KeyError key))), s).
Proof.
  intros Hm Hp Hin Hk. unfold handle_request.
  rewrite (obj_get_default_some _ _ _ _ Hm), Hp.
  destruct Hin as [Hin|(-> & -> & Hf)].
  - unfold first_required in Hin. simpl in Hin.
    destruct Hin as [E|[E|[E|[E|[E|[]]]]]]; inversion E; subst; simpl;
      unfold rpc_add_vector, rpc_search_similar, rpc_check_duplicate,
        rpc_remove_vector, rpc_rebuild_from_database, rbind, rlift;
      simpl; rewrite Hk; reflexivity.
  - simpl. unfold rpc_add_vector, rbind, rlift. simpl.
    destruct (obj_get "face_profile_id" params); [|congruence].
    rewrite Hk. reflexivity.
Qed.


(** X18: a search over RPC without the parameter k uses k = 10: the answer
    lists what the engine's search with k = 10 returns, at most ten matches,
    and the engine is not changed. *)
Theorem rpc_search_defaults_to_ten (fields params : list (string * json))
  (l : list json) (v : vec) (exclude_value : json) (ex : option Z)
  (s : engine) :
  obj_get "method" fields = Some (JStr "search_similar") ->
  obj_get_default "params" (JObj []) fields = JObj params ->
  obj_get "embedding" params = Some (JArr l) ->
  numbers l = Some v ->
  obj_get "k" params = None ->
  obj_get_default "exclude_id" JNull params = exclude_value ->
  as_optional_int exclude_value = Done ex ->
  exists results,
    search_similar v 10 ex s = (Returned results, s) /\
    (List.length results <= 10)%nat /\
    handle_request (JObj fields) s
    = (Done (result_response (obj_get_default "id" JNull fields)
               (JObj [("results"%string,
                       JArr (map result_json results))])), s).
Proof.
  intros Hm Hp He Hn Hk Hx Hex.
  destruct (search_similar_unfold v 10 ex s) as [E|(_ & _ & _ & E)].
  - exists []. split; [exact E|]. split; [simpl; lia|].
    unfold handle_request. rewrite (obj_get_default_some _ _ _ _ Hm), Hp.
    simpl. unfold rpc_search_similar, rbind, rlift, call_engine. simpl.
    rewrite He. simpl. rewrite Hn. unfold obj_get_default at 1.
    rewrite Hk, Hx. simpl. rewrite Hex, E. reflexivity.
  - eexists. split; [exact E|]. split.
    + pose proof (search_loop_length (id_map s) 10 ex
                    (flat_search (xb (index s)) (normalize v)
                       (Z.to_nat (py_min (10 * 2) (ntotal (index s))))) [])
        as L.
      assert (P : (Z.of_nat (List.length (@nil SearchResult)) < 10)%Z)
        by (simpl; lia).
      specialize (L P). lia.
    + unfold handle_request. rewrite (obj_get_default_some _ _ _ _ Hm), Hp.
      simpl. unfold rpc_search_similar, rbind, rlift, call_engine. simpl.
      rewrite He. simpl. rewrite Hn. unfold obj_get_default at 1.
      rewrite Hk, Hx. simpl. rewrite Hex, E. reflexivity.
Qed.

(** X19: a duplicate check over RPC answers best_match null exactly when
    the engine's search with k = 1 finds nothing, and then is_duplicate is
    false; otherwise best_match is the record of the first match.  The
    engine is not changed. *)
Theorem rpc_check_duplicate_best_match (fields params : list (string * json))
  (l : list json) (v : vec) (exclude_value : json) (ex : option Z)
  (s : engine) :
  obj_get "method" fields = Some (JStr "check_duplicate") ->
  obj_get_default "params" (JObj []) fields = JObj params ->
  obj_get "embedding" params = Some (JArr l) ->
  numbers l = Some v ->
  obj_get_default "exclude_id" JNull params = exclude_value ->
  as_optional_int exclude_value = Done ex ->
  exists results is_duplicate best_match,
    search_similar v 1 ex s = (Returned results, s) /\
    handle_request (JObj fields) s
    = (Done (result_response (obj_get_default "id" JNull fields)
               (JObj [("is_duplicate"%string, JBool is_duplicate);
                      ("best_match"%string, best_match)])), s) /\
    (best_match = JNull <-> results = []) /\
    (results = [] -> is_duplicate = false) /\
    (forall m rest, results = m :: rest -> best_match = result_json m).
Proof.
  intros Hm Hp He Hn Hx Hex.
  destruct (search_similar_returns v 1 ex s) as [results E].
  assert (H : forall r,
             check_duplicate v ex s = (Returned r, s) ->
             handle_request (JObj fields) s
             = (Done (result_response (obj_get_default "id" JNull fields)
                        (JObj [("is_duplicate"%string, JBool (fst r));
                               ("best_match"%string,
                                match snd r with
                                | Some m => result_json m
                                | None => JNull
                                end)])), s)).
  { intros r C. unfold handle_request.
    rewrite (obj_get_default_some _ _ _ _ Hm), Hp. simpl.
    unfold rpc_check_duplicate, rbind, rlift, call_engine. simpl.
    rewrite He. simpl. rewrite Hn, Hx. simpl. rewrite Hex, C. reflexivity. }
  exists results.
  destruct results as [|m rest].
  - exists false, JNull. split; [exact E|].
    split; [apply (H (false, None)); unfold check_duplicate, bind;
            rewrite E; reflexivity|].
    repeat split; try discriminate; auto.
  - exists (Qle_bool HIGH_CONFIDENCE_THRESHOLD (similarity m)),
      (result_json m).
    split; [exact E|].
    split; [apply (H (Qle_bool HIGH_CONFIDENCE_THRESHOLD (similarity m),
                      Some m)); unfold check_duplicate, bind;
            rewrite E; reflexivity|].
    repeat split; try discriminate.
    intros m' rest' X. now inversion X.
Qed.

(** ** The request loop *)

Lemma run_blank line rest s :
  nonblank line = false -> run (line :: rest) s = run rest s.
Proof.
  unfold nonblank. intro H. apply negb_false_iff in H. simpl. now rewrite H.
Qed.

Lemma run_nonblank line rest s :
  nonblank line = true ->
  run (line :: rest) s
  = match json_loads (str_strip line) with
    | None =>
        let '(out, e, s') := run rest s in (parse_error :: out, e, s')
    | Some request =>
        match handle_request request s with
        | (Done response, s') =>
            let '(out, e, s'') := run rest s' in (response :: out, e, s'')
        | (Thrown e, s') => ([], ServerError e, s')
        | (Unmodelled, s') => ([], NotModelled, s')
        end
    end.
Proof.
  unfold nonblank. intro H. apply negb_true_iff in H. simpl. now rewrite H.
Qed.

(** X20: the loop writes at most one response per non-blank line, and
    exactly one per non-blank line when it reaches the end of the input;
    blank lines get no answer. *)
Theorem one_response_per_line (lines : list string) (s : engine) :
  (List.length (fst (fst (run lines s)))
   <= List.length (filter nonblank lines))%nat /\
  (snd (fst (run lines s)) = EndOfInput ->
   List.length (fst (fst (run lines s)))
   = List.length (filter nonblank lines)).
Proof.
  revert s. induction lines as [|line rest IH]; intro s; [simpl; auto|].
  destruct (nonblank line) eqn:B.
  - rewrite (run_nonblank line rest s B). simpl filter. rewrite B.
    destruct (json_loads (str_strip line)) as [request|].
    + destruct (handle_request request s) as [[response|e|] s1].
      * specialize (IH s1). destruct (run rest s1) as [[out e] s2].
        simpl in *. destruct IH as [L E]. split; [lia|].
        intro X. now rewrite (E X).
      * simpl. split; [lia|discriminate].
      * simpl. split; [lia|discriminate].
    + specialize (IH s). destruct (run rest s) as [[out e] s2].
      simpl in *. destruct IH as [L E]. split; [lia|].
      intro X. now rewrite (E X).
  - rewrite (run_blank line rest s B). simpl filter. rewrite B. apply IH.
Qed.

(** X21: blank lines and lines that are not valid JSON never reach the
    engine: the loop ends the same way, with the same engine, as on the
    input without them; a line that is not valid JSON is answered with the
    parse error -32700 and a null id. *)
Theorem parse_errors_are_isolated (lines : list string) (s : engine) :
  let good := filter (fun l => nonblank l && decodable l) lines in
  snd (run good s) = snd (run lines s) /\
  snd (fst (run good s)) = snd (fst (run lines s)) /\
  (forall line rest,
     nonblank line = true -> decodable line = false ->
     fst (fst (run (line :: rest) s))
     = error_response JNull (-32700) "Parse error"
         :: fst (fst (run rest s))).
Proof.
  split; [|split].
  - revert s. induction lines as [|line rest IH]; intro s; [reflexivity|].
    simpl filter. destruct (nonblank line) eqn:B; simpl andb.
    + unfold decodable. rewrite (run_nonblank line rest s B).
      destruct (json_loads (str_strip line)) as [request|] eqn:J.
      * rewrite (run_nonblank line _ s B), J.
        destruct (handle_request request s) as [[response|e|] s1];
          try reflexivity.
        specialize (IH s1).
        destruct (run rest s1) as [[out e] s2].
        destruct (run (filter _ rest) s1) as [[out' e'] s2'].
        simpl in *. exact IH.
      * specialize (IH s).
        destruct (run rest s) as [[out e] s2].
        destruct (run (filter _ rest) s) as [[out' e'] s2'].
        simpl in *. exact IH.
    + rewrite (run_blank line rest s B). apply IH.
  - revert s. induction lines as [|line rest IH]; intro s; [reflexivity|].
    simpl filter. destruct (nonblank line) eqn:B; simpl andb.
    + unfold decodable. rewrite (run_nonblank line rest s B).
      destruct (json_loads (str_strip line)) as [request|] eqn:J.
      * rewrite (run_nonblank line _ s B), J.
        destruct (handle_request request s) as [[response|e|] s1];
          try reflexivity.
        specialize (IH s1).
        destruct (run rest s1) as [[out e] s2].
        destruct (run (filter _ rest) s1) as [[out' e'] s2'].
        simpl in *. exact IH.
      * specialize (IH s).
        destruct (run rest s) as [[out e] s2].
        destruct (run (filter _ rest) s) as [[out' e'] s2'].
        simpl in *. exact IH.
    + rewrite (run_blank line rest s B). apply IH.
  - intros line rest B D. rewrite (run_nonblank line rest s B).
    unfold decodable in D.
    destruct (json_loads (str_strip line)); [discriminate|].
    now destruct (run rest s) as [[out e] s2].
Qed.

(** X22: a line that decodes to something other than a dictionary, or to a
    dictionary whose method is a list or a dictionary, ends the loop without
    an answer: the exception leaves handle_request, the engine is unchanged
    and no later line is read. *)
Theorem fatal_line_stops_the_server (pre : list string) (line : string)
  (rest : list string) (request : json) (s : engine) :
  nonblank line = true ->
  json_loads (str_strip line) = Some request ->
  fatal request = true ->
  (exists e, run (line :: rest) s = ([], ServerError e, s) /\
             (e = AttributeError \/ e = TypeError)) /\
  run (pre ++ line :: rest) s = run (pre ++ [line]) s.
Proof.
  intros B J F.
  assert (H : exists e, handle_request request s = (Thrown e, s) /\
                        (e = AttributeError \/ e = TypeError)).
  { destruct request as [| b | z | q | str | l | fields];
      try (exists AttributeError; split; [reflexivity|now left]).
    unfold fatal in F. unfold handle_request.
    destruct (obj_get_default "method" JNull fields); try discriminate F;
      exists TypeError; split; try reflexivity; now right. }
  assert (G : forall s0 tail,
             (exists e, handle_request request s0 = (Thrown e, s0)) ->
             run (line :: tail) s0 = run [line] s0).
  { intros s0 tail [e E]. rewrite !(run_nonblank line _ s0 B), J, E.
    reflexivity. }
  split.
  - destruct H as (e & E & C). exists e. split; [|exact C].
    now rewrite (run_nonblank line rest s B), J, E.
  - clear H. revert s. induction pre as [|p pre IH]; intro s; simpl app.
    + apply G.
      destruct request as [| b | z | q | str | l | fields];
        try (exists AttributeError; reflexivity).
      unfold fatal in F. unfold handle_request.
      destruct (obj_get_default "method" JNull fields); try discriminate F;
        exists TypeError; reflexivity.
    + destruct (nonblank p) eqn:Bp.
      * rewrite !(run_nonblank p _ s Bp).
        destruct (json_loads (str_strip p)) as [r|].
        -- destruct (handle_request r s) as [[response|e|] s1];
             try reflexivity.
           now rewrite IH.
        -- now rewrite IH.
      * rewrite !(run_blank p _ s Bp). apply IH.
Qed.

End ServerProofs.

(** ** Sample requests *)

Lemma method_not_found_iff_witness :
  let fields := request_fields 2 "ping" [] in
  let response := error_response (JInt 2) (-32601) "Method not found: ping" in
  handle_request (JObj fields) two_faces = (Done response, two_faces) /\
  (exists message, response = error_response (JInt 2) (-32601) message) /\
  (forall name, JStr "ping" = JStr name ->
     ~ In name ["add_vector"; "search_similar"; "check_duplicate";
                "remove_vector"; "get_stats";
                "rebuild_from_database"]%string).
Proof.
  intros fields response.
  assert (H : handle_request (JObj fields) two_faces
              = (Done response, two_faces)) by reflexivity.
  split; [exact H|]. split; [now exists "Method not found: ping"%string|].
  destruct (method_not_found_iff fields two_faces two_faces response H)
    as [A _].
  apply A. now exists "Method not found: ping"%string.
Defined.

Lemma responses_echo_the_request_id_witness :
  let request := make_request 5 "get_stats" [] in
  (exists response,
     handle_request request two_faces = (Done response, two_faces)) /\
  exists fields, request = JObj fields /\
                 obj_get_default "id" JNull fields = JInt 5.
Proof.
  intro request.
  assert (H : handle_request request two_faces
              = (Done (result_response (JInt 5)
                         (JObj [("stats"%string,
                                 JObj (get_stats two_faces))])), two_faces))
    by reflexivity.
  split; [eexists; exact H|].
  destruct (responses_echo_the_request_id request two_faces two_faces _ H)
    as (fields & F & _).
  exists fields. split; [exact F|]. inversion F. reflexivity.
Defined.

Lemma missing_parameter_is_internal_error_witness :
  let fields := request_fields 3 "remove_vector" [] in
  obj_get "method" fields = Some (JStr "remove_vector") /\
  obj_get_default "params" (JObj []) fields = JObj [] /\
  In ("remove_vector"%string, "face_profile_id"%string) first_required /\
  obj_get "face_profile_id" [] = None /\
  handle_request (JObj fields) two_faces
  = (Done (error_response (JInt 3) (-32603) "'face_profile_id'"), two_faces).
Proof.
  intro fields.
  assert (H1 : obj_get "method" fields = Some (JStr "remove_vector"))
    by reflexivity.
  assert (H2 : obj_get_default "params" (JObj []) fields = JObj [])
    by reflexivity.
  assert (H3 : In ("remove_vector"%string, "face_profile_id"%string)
                 first_required) by (simpl; tauto).
  assert (H4 : obj_get "face_profile_id" [] = None) by reflexivity.
  split; [exact H1|]. split; [exact H2|]. split; [exact H3|].
  split; [exact H4|].
  exact (missing_parameter_is_internal_error fields [] "remove_vector"
           "face_profile_id" two_faces H1 H2 (or_introl H3) H4).
Defined.


Lemma rpc_search_defaults_to_ten_witness :
  let params := [("embedding"%string, JArr [JInt 1; JInt 0; JInt 0; JInt 0])]
  in
  let fields := request_fields 6 "search_similar" params in
  obj_get "method" fields = Some (JStr "search_similar") /\
  obj_get_default "params" (JObj []) fields = JObj params /\
  obj_get "embedding" params = Some (JArr [JInt 1; JInt 0; JInt 0; JInt 0]) /\
  numbers [JInt 1; JInt 0; JInt 0; JInt 0]
  = Some [inject_Z 1; inject_Z 0; inject_Z 0; inject_Z 0] /\
  obj_get "k" params = None /\
  as_optional_int (obj_get_default "exclude_id" JNull params) = Done None /\
  exists results,
    (List.length results <= 10)%nat /\
    handle_request (JObj fields) two_faces
    = (Done (result_response (JInt 6)
               (JObj [("results"%string, JArr (map result_json results))])),
       two_faces).
Proof.
  intros params fields.
  assert (H1 : obj_get "method" fields = Some (JStr "search_similar"))
    by reflexivity.
  assert (H2 : obj_get_default "params" (JObj []) fields = JObj params)
    by reflexivity.
  assert (H3 : obj_get "embedding" params
               = Some (JArr [JInt 1; JInt 0; JInt 0; JInt 0]))
    by reflexivity.
  assert (H4 : numbers [JInt 1; JInt 0; JInt 0; JInt 0]
               = Some [inject_Z 1; inject_Z 0; inject_Z 0; inject_Z 0])
    by reflexivity.
  assert (H5 : obj_get "k" params = None) by reflexivity.
  assert (H6 : as_optional_int (obj_get_default "exclude_id" JNull params)
               = Done None) by reflexivity.
  split; [exact H1|]. split; [exact H2|]. split; [exact H3|].
  split; [exact H4|]. split; [exact H5|]. split; [exact H6|].
  destruct (rpc_search_defaults_to_ten fields params _ _ _ None two_faces
              H1 H2 H3 H4 H5 eq_refl H6) as (results & _ & L & A).
  exists results. split; [exact L|exact A].
Defined.

Lemma rpc_check_duplicate_best_match_witness :
  let params := [("embedding"%string, JArr [JInt 1; JInt 0; JInt 0; JInt 0]);
                 ("exclude_id"%string, JInt 1)] in
  let fields := request_fields 8 "check_duplicate" params in
  obj_get "method" fields = Some (JStr "check_duplicate") /\
  obj_get_default "params" (JObj []) fields = JObj params /\
  obj_get "embedding" params = Some (JArr [JInt 1; JInt 0; JInt 0; JInt 0]) /\
  numbers [JInt 1; JInt 0; JInt 0; JInt 0]
  = Some [inject_Z 1; inject_Z 0; inject_Z 0; inject_Z 0] /\
  as_optional_int (obj_get_default "exclude_id" JNull params)
  = Done (Some 1%Z) /\
  exists is_duplicate best_match,
    handle_request (JObj fields) two_faces
    = (Done (result_response (JInt 8)
               (JObj [("is_duplicate"%string, JBool is_duplicate);
                      ("best_match"%string, best_match)])), two_faces).
Proof.
  intros params fields.
  assert (H1 : obj_get "method" fields = Some (JStr "check_duplicate"))
    by reflexivity.
  assert (H2 : obj_get_default "params" (JObj []) fields = JObj params)
    by reflexivity.
  assert (H3 : obj_get "embedding" params
               = Some (JArr [JInt 1; JInt 0; JInt 0; JInt 0]))
    by reflexivity.
  assert (H4 : numbers [JInt 1; JInt 0; JInt 0; JInt 0]
               = Some [inject_Z 1; inject_Z 0; inject_Z 0; inject_Z 0])
    by reflexivity.
  assert (H6 : as_optional_int (obj_get_default "exclude_id" JNull params)
               = Done (Some 1%Z)) by reflexivity.
  split; [exact H1|]. split; [exact H2|]. split; [exact H3|].
  split; [exact H4|]. split; [exact H6|].
  destruct (rpc_check_duplicate_best_match fields params _ _ _ (Some 1%Z)
              two_faces H1 H2 H3 H4 eq_refl H6)
    as (results & b & bm & _ & A & _).
  exists b, bm. exact A.
Defined.

Lemma fatal_line_stops_the_server_witness :
  nonblank Sample.line_array = true /\
  json_loads (str_strip Sample.line_array) = Some (JArr []) /\
  fatal (JArr []) = true /\
  run [Sample.line_stats; Sample.line_array; Sample.line_stats] two_faces
  = run [Sample.line_stats; Sample.line_array] two_faces.
Proof.
  assert (H1 : nonblank Sample.line_array = true) by reflexivity.
  assert (H2 : json_loads (str_strip Sample.line_array) = Some (JArr []))
    by reflexivity.
  assert (H3 : fatal (JArr []) = true) by reflexivity.
  split; [exact H1|]. split; [exact H2|]. split; [exact H3|].
  destruct (fatal_line_stops_the_server [Sample.line_stats]
              Sample.line_array [Sample.line_stats] (JArr []) two_faces
              H1 H2 H3) as [_ A].
  exact A.
Defined.

Section RebuildOverRpc.

Context {K : Kernels} {R : Runtime}.

Lemma read_profiles_stops (pre : list json) (item : json) (rest : list json)
  (l : list (json * vec)) (e : server_exn) :
  read_profiles pre = Done l ->
  (subscript item "id" = Thrown e \/
   (exists v, subscript item "id" = Done v /\
              subscript item "embedding" = Thrown e)) ->
  read_profiles (pre ++ item :: rest) = Thrown e.
Proof.
  revert l. induction pre as [|p pre IH]; intros l Hp Hi; simpl.
  - destruct Hi as [-> | (v & -> & ->)]; reflexivity.
  - simpl in Hp.
    destruct (subscript p "id"); try discriminate Hp.
    destruct (subscript p "embedding"); try discriminate Hp.
    destruct (np_array a0); try discriminate Hp.
    destruct (read_profiles pre) as [l'| |] eqn:P; try discriminate Hp.
    now rewrite (IH l' eq_refl Hi).
Qed.

(** X23: a rebuild over RPC is refused as a whole when one record is not a
    dictionary or lacks its id or its embedding: the answer is error -32603
    with the text of that exception, and the engine still holds what it held
    before, although the engine's own rebuild would have skipped a bad
    record. *)
Theorem rpc_rebuild_rejects_malformed_record
  (fields params : list (string * json)) (pre : list json) (item : json)
  (rest : list json) (l : list (json * vec)) (e : server_exn) (s : engine) :
  obj_get "method" fields = Some (JStr "rebuild_from_database") ->
  obj_get_default "params" (JObj []) fields = JObj params ->
  obj_get "face_profiles" params = Some (JArr (pre ++ item :: rest)) ->
  read_profiles pre = Done l ->
  (subscript item "id" = Thrown e \/
   (exists v, subscript item "id" = Done v /\
              subscript item "embedding" = Thrown e)) ->
  handle_request (JObj fields) s
  = (Done (error_response (obj_get_default "id" JNull fields) (-32603)
             (exn_str e)), s).
Proof.
  intros Hm Hp Hf Hl Hi. unfold handle_request.
  rewrite (obj_get_default_some _ _ _ _ Hm), Hp. simpl.
  unfold rpc_rebuild_from_database, rbind, rlift. simpl. rewrite Hf. simpl.
  now rewrite (read_profiles_stops pre item rest l e Hl Hi).
Qed.

End RebuildOverRpc.

Lemma rpc_rebuild_rejects_malformed_record_witness :
  let good := JObj [("id"%string, JInt 1);
                    ("embedding"%string,
                     JArr [JInt 1; JInt 0; JInt 0; JInt 0])] in
  let bad := JObj [("embedding"%string,
                    JArr [JInt 0; JInt 1; JInt 0; JInt 0])] in
  let params := [("face_profiles"%string, JArr ([good] ++ bad :: []))] in
  let fields := request_fields 9 "rebuild_from_database" params in
  obj_get "method" fields = Some (JStr "rebuild_from_database") /\
  obj_get_default "params" (JObj []) fields = JObj params /\
  obj_get "face_profiles" params = Some (JArr ([good] ++ bad :: [])) /\
  read_profiles [good] = Done [(JInt 1, [inject_Z 1; inject_Z 0; inject_Z 0;
                                         inject_Z 0])] /\
  subscript bad "id" = Thrown (KeyError "id") /\
  handle_request (JObj fields) two_faces
  = (Done (error_response (JInt 9) (-32603) "'id'"), two_faces).
Proof.
  intros good bad params fields.
  assert (H1 : obj_get "method" fields = Some (JStr "rebuild_from_database"))
    by reflexivity.
  assert (H2 : obj_get_default "params" (JObj []) fields = JObj params)
    by reflexivity.
  assert (H3 : obj_get "face_profiles" params
               = Some (JArr ([good] ++ bad :: []))) by reflexivity.
  assert (H4 : read_profiles [good]
               = Done [(JInt 1, [inject_Z 1; inject_Z 0; inject_Z 0;
                                 inject_Z 0])]) by reflexivity.
  assert (H5 : subscript bad "id" = Thrown (KeyError "id")) by reflexivity.
  split; [exact H1|]. split; [exact H2|]. split; [exact H3|].
  split; [exact H4|]. split; [exact H5|].
  exact (rpc_rebuild_rejects_malformed_record fields params [good] bad []
           _ (KeyError "id") two_faces H1 H2 H3 H4 (or_introl H5)).
Defined.

Lemma one_response_per_line_witness :
  let lines := [Sample.line_stats; "   "%string; Sample.line_truncated;
                Sample.line_ping] in
  snd (fst (run lines two_faces)) = EndOfInput /\
  List.length (fst (fst (run lines two_faces))) = 3%nat /\
  List.length (filter nonblank lines) = 3%nat.
Proof.
  intro lines.
  assert (E : snd (fst (run lines two_faces)) = EndOfInput) by reflexivity.
  split; [exact E|].
  destruct (one_response_per_line lines two_faces) as [_ A].
  split; [rewrite (A E)|]; reflexivity.
Defined.

Lemma parse_errors_are_isolated_witness :
  nonblank Sample.line_truncated = true /\
  decodable Sample.line_truncated = false /\
  fst (fst (run [Sample.line_truncated; Sample.line_ping] two_faces))
  = [error_response JNull (-32700) "Parse error";
     error_response (JInt 2) (-32601) "Method not found: ping"].
Proof.
  assert (H1 : nonblank Sample.line_truncated = true) by reflexivity.
  assert (H2 : decodable Sample.line_truncated = false) by reflexivity.
  split; [exact H1|]. split; [exact H2|].
  destruct (parse_errors_are_isolated
              [Sample.line_truncated; Sample.line_ping] two_faces)
    as (_ & _ & A).
  rewrite (A Sample.line_truncated [Sample.line_ping] H1 H2). reflexivity.
Defined.

Lemma search_similar_at_most_k_witness :
  exists results,
    search_similar e1 1 None two_faces = (Returned results, two_faces) /\
    (Z.of_nat (List.length results) <= Z.max 0 1)%Z.
Proof.
  apply (search_similar_at_most_k two_faces e1 1 None).
Defined.
